(** * rich/progress.py: the task model, the speed estimator and the registry

    A shallow embedding of [Task] and [Progress] from [rich/progress.py].

    Conventions of the embedding.
    - Python floats are idealised as exact rationals ([Q]); [==] on floats is
      [Qeq_bool], [<] is [Qlt_bool], [>=] is [Qle_bool] with swapped operands.
      [PyTask.percentage] is the exception: there [total] and [completed] are
      Python numbers, an [int] of any size or an IEEE 754 double, so that
      rounding, infinities, NaN and [OverflowError] are those of the code.
    - A division raises [ZeroDivisionError] on a zero divisor, so every
      function that divides returns a [result].
    - [monotonic()] is an input of the operation that reads it ([now]).
    - The registry is mutated in place and an exception leaves the mutations
      done so far in place: registry operations live in the monad
      [Progress.M A = Progress.t -> result A * Progress.t].
    - The renderer ([Console], [LiveRender], [Table], the columns) is an
      external collaborator: the outcome of the one rendering pass of a
      [refresh] is an input ([render : option exn], [None] = it returned).
    - The lock is re-entrant and the model is sequential, so [with self._lock]
      is the identity. *)

From Stdlib Require Import ZArith QArith Qround Lia Lqa SpecFloat.
From stdpp Require Import base option list gmap strings.

Local Open Scope Z_scope.

(** ** Exceptions and results *)

Definition TaskID := Z.

Inductive exn : Type :=
| KeyError (key : TaskID)
| ZeroDivisionError
| OverflowError
| RenderError (code : Z).

Inductive result (A : Type) : Type :=
| Ok (a : A)
| Err (e : exn).
Arguments Ok {A} a.
Arguments Err {A} e.

Definition result_bind {A B} (r : result A) (k : A -> result B) : result B :=
  match r with
  | Ok a => k a
  | Err e => Err e
  end.

Declare Scope result_scope.
Delimit Scope result_scope with result.
Notation "'let?' x ':=' r 'in' k" := (result_bind r (fun x => k))
  (at level 10, x name, r at level 100, k at level 200) : result_scope.

(** ** Python numerics on idealised floats *)

Definition Qlt_bool (a b : Q) : bool := negb (Qle_bool b a).

(** [not x] for a number. *)
Definition py_not (x : Q) : bool := Qeq_bool x 0.

(** [a / b]. *)
Definition py_truediv (a b : Q) : result Q :=
  if Qeq_bool b 0 then Err ZeroDivisionError else Ok (a / b)%Q.

(** [int(x)]: truncation towards zero. *)
Definition py_int (x : Q) : Z := Z.quot (Qnum x) (Z.pos (Qden x)).

(** [round(x)]: to the nearest integer, ties to the even one. *)
Definition py_round (x : Q) : Z :=
  let f := Qfloor x in
  match Qcompare (x - inject_Z f) (1 # 2) with
  | Lt => f
  | Gt => f + 1
  | Eq => if Z.even f then f else f + 1
  end.

(** [max(a, b)] and [min(a, b)]: the first argument wins ties. *)
Definition py_max (a b : Q) : Q := if Qlt_bool a b then b else a.
Definition py_min (a b : Q) : Q := if Qlt_bool b a then b else a.

(** [sum(xs)]: starts from [0] and adds from the left. *)
Definition py_sum (xs : list Q) : Q := fold_left Qplus xs 0%Q.

(** ** [_ProgressSample] *)

Module ProgressSample.
Record t : Type := mk { timestamp : Q; completed : Q }.
End ProgressSample.

(** Values of the free-form [fields] mapping; the registry never inspects
    them ([add_task] annotates them as [str]). *)
Definition Value := string.

(** ** [Task] *)

Module Task.

Record t : Type := mk {
  id : TaskID;
  name : string;
  total : Q;
  completed : Q;
  visible : bool;
  fields : gmap string Value;
  start_time : option Q;
  stop_time : option Q;
  _progress : list ProgressSample.t
}.

Definition set_total (v : Q) (self : t) : t :=
  mk (id self) (name self) v (completed self) (visible self) (fields self)
     (start_time self) (stop_time self) (_progress self).
Definition set_completed (v : Q) (self : t) : t :=
  mk (id self) (name self) (total self) v (visible self) (fields self)
     (start_time self) (stop_time self) (_progress self).
Definition set_visible (v : bool) (self : t) : t :=
  mk (id self) (name self) (total self) (completed self) v (fields self)
     (start_time self) (stop_time self) (_progress self).
Definition set_fields (v : gmap string Value) (self : t) : t :=
  mk (id self) (name self) (total self) (completed self) (visible self) v
     (start_time self) (stop_time self) (_progress self).
Definition set_start_time (v : option Q) (self : t) : t :=
  mk (id self) (name self) (total self) (completed self) (visible self)
     (fields self) v (stop_time self) (_progress self).
Definition set_stop_time (v : option Q) (self : t) : t :=
  mk (id self) (name self) (total self) (completed self) (visible self)
     (fields self) (start_time self) v (_progress self).
Definition set_progress (v : list ProgressSample.t) (self : t) : t :=
  mk (id self) (name self) (total self) (completed self) (visible self)
     (fields self) (start_time self) (stop_time self) v.

(** [remaining]: [self.total - self.completed]. *)
Definition remaining (self : t) : Q := (total self - completed self)%Q.

(** [finished]: [self.completed >= self.total]. *)
Definition finished (self : t) : bool := Qle_bool (total self) (completed self).

(** [percentage]. *)
Definition percentage (self : t) : result Q :=
  if py_not (total self) then Ok 0%Q
  else
    (let? q := py_truediv (completed self) (total self) in
     let completed := (q * 100)%Q in
     Ok (py_min 100 (py_max 0 completed)))%result.

(** [speed]: [progress[0]] is the head, [progress[-1]] the last element,
    [progress[1:]] the tail. *)
Definition speed (self : t) : result (option Q) :=
  match start_time self with
  | None => Ok (Some 0%Q)
  | Some _ =>
      let progress := _progress self in
      match progress with
      | [] => Ok None
      | first :: rest =>
          let total_time :=
            (ProgressSample.timestamp (List.last progress first)
             - ProgressSample.timestamp first)%Q in
          if Qeq_bool total_time 0 then Ok None
          else
            let total_completed := py_sum (map ProgressSample.completed rest) in
            (let? speed := py_truediv total_completed total_time in
             Ok (Some speed))%result
      end
  end.

(** [time_remaining]. *)
Definition time_remaining (self : t) : result (option Q) :=
  if finished self then Ok (Some 0%Q)
  else
    (let? speed := speed self in
     match speed with
     | None => Ok None
     | Some speed =>
         let? q := py_truediv (remaining self) (inject_Z (py_int speed)) in
         Ok (Some (inject_Z (py_round q)))
     end)%result.

(** [elapsed]; [now] is the reading of [monotonic()] when the task runs. *)
Definition elapsed (now : Q) (self : t) : option Q :=
  match start_time self with
  | None => None
  | Some start_time =>
      match stop_time self with
      | Some stop_time => Some (stop_time - start_time)%Q
      | None => Some (now - start_time)%Q
      end
  end.

End Task.

(** ** Python numbers: unbounded ints and doubles

    A double is a [spec_float] of the standard library at precision 53 and
    maximal exponent 1024, the finite doubles being those in canonical form
    ([valid_binary]); every operation below returns canonical values on
    canonical arguments. *)

Inductive number : Type :=
| PyInt (z : Z)
| PyFloat (x : spec_float).

Definition dbl_prec : Z := 53.
Definition dbl_emax : Z := 1024.

(** The doubles [0.0] and [100.0]. *)
Definition float_zero : spec_float := S754_zero false.
Definition float_100 : spec_float :=
  Eval vm_compute in binary_normalize dbl_prec dbl_emax 100 0 false.

(** The conversion of an int to a double that arithmetic with a float
    operand performs: to the nearest double, ties to even, and
    [OverflowError] beyond the range of the doubles. *)
Definition float_of_int (z : Z) : result spec_float :=
  match binary_normalize dbl_prec dbl_emax z 0 false with
  | S754_infinity _ => Err OverflowError
  | x => Ok x
  end.

(** [bool(x)]: an int is false when it is 0, a float when it equals [0.0]
    (so [-0.0] is false and NaN is true). *)
Definition py_bool (n : number) : bool :=
  match n with
  | PyInt z => negb (Z.eqb z 0)
  | PyFloat x => negb (SFeqb x float_zero)
  end.

(** [a / b] on two ints: the quotient correctly rounded to a double, the
    sign of a zero result being that of [b] when [a] is 0. *)
Definition int_truediv (a b : Z) : result spec_float :=
  if Z.eqb b 0 then Err ZeroDivisionError
  else
    let negate := xorb (Z.ltb a 0) (Z.ltb b 0) in
    let '(q, e, l) :=
      SFdiv_core_binary dbl_prec dbl_emax (Z.abs a) 0 (Z.abs b) 0 in
    match binary_round_aux dbl_prec dbl_emax negate q e l with
    | S754_infinity _ => Err OverflowError
    | x => Ok x
    end.

(** [a / b] on two doubles. *)
Definition float_truediv (a b : spec_float) : result spec_float :=
  if SFeqb b float_zero then Err ZeroDivisionError
  else Ok (SFdiv dbl_prec dbl_emax a b).

Definition as_double (n : number) : result spec_float :=
  match n with
  | PyInt z => float_of_int z
  | PyFloat x => Ok x
  end.

(** [a / b]: with a float operand both operands are converted to doubles,
    left first, before the divisor is tested. *)
Definition truediv (a b : number) : result spec_float :=
  match a, b with
  | PyInt a, PyInt b => int_truediv a b
  | _, _ =>
      (let? x := as_double a in
       let? y := as_double b in
       float_truediv x y)%result
  end.

Definition is_float (n : number) : bool :=
  match n with
  | PyFloat _ => true
  | PyInt _ => false
  end.

(** ** [Task.percentage] on Python numbers *)

Module PyTask.

(** The two fields of [Task] that [percentage] reads. *)
Record t : Type := mk { total : number; completed : number }.

(** [percentage]: [max(0.0, x)] is [x] when [x > 0.0] and else [0.0];
    [min(100, m)] is [m] when [m < 100] and else the int [100].  A float is
    compared with the int 100 by value, that is with [100.0]. *)
Definition percentage (self : t) : result number :=
  if negb (py_bool (total self)) then Ok (PyFloat float_zero)
  else
    (let? q := truediv (completed self) (total self) in
     let completed := SFmul dbl_prec dbl_emax q float_100 in
     let completed :=
       if SFltb float_zero completed then completed else float_zero in
     Ok (if SFltb completed float_100 then PyFloat completed else PyInt 100)
    )%result.

End PyTask.

(** ** Insertion-ordered dictionaries

    [Progress._tasks] is a Python [dict]: keys are unique and iteration
    follows insertion order, which [tasks_ids] exposes.  It is modelled as an
    association list in insertion order. *)

Section Dict.
Context {V : Type}.

Definition dict := list (TaskID * V).

(** [d[k]] ([None] stands for [KeyError]). *)
Fixpoint dict_get (k : TaskID) (d : dict) : option V :=
  match d with
  | [] => None
  | (k', v) :: d' => if Z.eqb k k' then Some v else dict_get k d'
  end.

(** [d[k] = v]: an existing key keeps its position, a new key goes last. *)
Fixpoint dict_set (k : TaskID) (v : V) (d : dict) : dict :=
  match d with
  | [] => [(k, v)]
  | (k', v') :: d' =>
      if Z.eqb k k' then (k, v) :: d' else (k', v') :: dict_set k v d'
  end.

(** [del d[k]] ([None] stands for [KeyError]). *)
Fixpoint dict_del (k : TaskID) (d : dict) : option dict :=
  match d with
  | [] => None
  | (k', v') :: d' =>
      if Z.eqb k k' then Some d'
      else match dict_del k d' with
           | Some d'' => Some ((k', v') :: d'')
           | None => None
           end
  end.

(** [list(d.keys())] and [d.values()]. *)
Definition dict_keys (d : dict) : list TaskID := map fst d.
Definition dict_values (d : dict) : list V := map snd d.
End Dict.
Arguments dict V : clear implicits.

(** ** [Progress] *)

Module Progress.

Record t : Type := mk {
  speed_estimate_period : Q;
  _tasks : dict Task.t;
  _task_index : TaskID;
  _refresh_count : Z
}.

Definition set_tasks (v : dict Task.t) (self : t) : t :=
  mk (speed_estimate_period self) v (_task_index self) (_refresh_count self).
Definition set_task_index (v : TaskID) (self : t) : t :=
  mk (speed_estimate_period self) (_tasks self) v (_refresh_count self).
Definition set_refresh_count (v : Z) (self : t) : t :=
  mk (speed_estimate_period self) (_tasks self) (_task_index self) v.

(** [Progress(speed_estimate_period=...)]. *)
Definition init (period : Q) : t := mk period [] 0 0.

(** Registry operations: state passing, the state survives an exception. *)
Definition M (A : Type) : Type := t -> result A * t.

Definition ret {A} (a : A) : M A := fun self => (Ok a, self).
Definition raise {A} (e : exn) : M A := fun self => (Err e, self).
Definition bind {A B} (m : M A) (k : A -> M B) : M B :=
  fun self =>
    match m self with
    | (Ok a, self') => k a self'
    | (Err e, self') => (Err e, self')
    end.
Definition get : M t := fun self => (Ok self, self).
Definition modify (f : t -> t) : M unit := fun self => (Ok tt, f self).

Declare Scope progress_scope.
Delimit Scope progress_scope with progress.
Notation "'do' x '<-' m ';' k" := (bind m (fun x => k))
  (at level 10, x name, m at level 100, k at level 200) : progress_scope.
Notation "m ';;' k" := (bind m (fun _ => k))
  (at level 100, k at level 200, right associativity) : progress_scope.
Local Open Scope progress_scope.

(** [self._tasks[task_id]]. *)
Definition lookup_task (task_id : TaskID) : M Task.t :=
  do self <- get;
  match dict_get task_id (_tasks self) with
  | Some task => ret task
  | None => raise (KeyError task_id)
  end.

(** A write through the reference [task] obtained from [self._tasks]. *)
Definition store_task (task_id : TaskID) (task : Task.t) : M unit :=
  modify (fun self => set_tasks (dict_set task_id task (_tasks self)) self).

(** [tasks_ids]. *)
Definition tasks_ids (self : t) : list TaskID := dict_keys (_tasks self).

(** [finished]: [all(...)] of an empty dict is [True] as well. *)
Definition finished (self : t) : bool :=
  match _tasks self with
  | [] => true
  | _ => forallb Task.finished (dict_values (_tasks self))
  end.

(** [start(task_id)]. *)
Definition start (now : Q) (task_id : TaskID) : M unit :=
  do task <- lookup_task task_id;
  store_task task_id (Task.set_start_time (Some now) task).

(** [stop(task_id)]. *)
Definition stop (now : Q) (task_id : TaskID) : M unit :=
  do task <- lookup_task task_id;
  let current_time := now in
  let task :=
    match Task.start_time task with
    | None => Task.set_start_time (Some current_time) task
    | Some _ => task
    end in
  store_task task_id (Task.set_stop_time (Some current_time) task).

(** The [while _progress and _progress[0].timestamp < old_sample_time:
    _progress.popleft()] loop of [update]. *)
Fixpoint popleft_old (old_sample_time : Q) (_progress : list ProgressSample.t)
  : list ProgressSample.t :=
  match _progress with
  | [] => []
  | first :: rest =>
      if Qlt_bool (ProgressSample.timestamp first) old_sample_time
      then popleft_old old_sample_time rest
      else _progress
  end.

(** [update(task_id, total=, completed=, advance=, visible=, **fields)];
    an omitted keyword is [None], [fields.update] lets the new entries win. *)
Definition update (now : Q) (task_id : TaskID)
    (total completed advance : option Q) (visible : option bool)
    (fields : gmap string Value) : M unit :=
  let current_time := now in
  do self <- get;
  do task <- lookup_task task_id;
  let completed_start := Task.completed task in
  let task :=
    match total with
    | Some total => Task.set_total total task
    | None => task
    end in
  let task :=
    match advance with
    | Some advance => Task.set_completed (Task.completed task + advance)%Q task
    | None => task
    end in
  let task :=
    match completed with
    | Some completed => Task.set_completed completed task
    | None => task
    end in
  let task :=
    match visible with
    | Some _ => Task.set_visible true task
    | None => task
    end in
  let task := Task.set_fields (fields ∪ Task.fields task) task in
  let update_completed := (Task.completed task - completed_start)%Q in
  let old_sample_time := (current_time - speed_estimate_period self)%Q in
  let _progress := popleft_old old_sample_time (Task._progress task) in
  let task :=
    Task.set_progress
      (_progress ++ [ProgressSample.mk current_time update_completed]) task in
  store_task task_id task.

(** [refresh()]: [render] is what the rendering pass did. *)
Definition refresh (render : option exn) : M unit :=
  match render with
  | Some e => raise e
  | None =>
      modify (fun self => set_refresh_count (_refresh_count self + 1) self)
  end.

(** [add_task(name, start, total, completed, visible, **fields)]; the
    [finally] clause runs only once the [return] is reached. *)
Definition add_task (now : Q) (render : option exn) (name : string)
    (start_ : bool) (total completed : Q) (visible : bool)
    (fields : gmap string Value) : M TaskID :=
  do self <- get;
  let task :=
    Task.mk (_task_index self) name total completed visible fields
            None None [] in
  store_task (_task_index self) task;;
  (if start_ then start now (_task_index self) else ret tt);;
  refresh render;;
  modify (set_task_index (_task_index self + 1));;
  ret (_task_index self).

(** [remove_task(task_id)]. *)
Definition remove_task (task_id : TaskID) : M unit :=
  do self <- get;
  match dict_del task_id (_tasks self) with
  | Some tasks => modify (set_tasks tasks)
  | None => raise (KeyError task_id)
  end.

End Progress.

(** ** Progress columns

    [Text] and [Bar] are constructors of the renderer, kept symbolic.
    [str(timedelta(seconds=n))] and [filesize.decimal(n)] are computed
    outside this file: they are parameters, and may raise. *)

Inductive Renderable : Type :=
| Text (text : string) (style : string)
| Bar (total completed : Q) (width : option Z).


Module ProgressColumn.

(** The state of a column object: [max_refresh] is a class attribute,
    [_renderable_cache] maps a task id to [(timestamp, renderable)]. *)
Record t : Type := mk {
  max_refresh : option Q;
  _renderable_cache : gmap TaskID (Q * Renderable)
}.

(** [ProgressColumn.__init__]. *)
Definition init (max_refresh : option Q) : t := mk max_refresh ∅.

(** [__call__(task)]: [render] is the column's [render] method, [now] the
    reading of [monotonic()].  The [try ... except KeyError: pass ... else]
    block is the lookup with its two outcomes; an exception of [render]
    leaves before the cache is written. *)
Definition call (render : Task.t -> result Renderable) (now : Q)
    (task : Task.t) (self : t) : result Renderable * t :=
  let current_time := now in
  let cached :=
    match max_refresh self with
    | Some max_refresh =>
        match _renderable_cache self !! Task.id task with
        | Some (timestamp, renderable) =>
            if Qlt_bool current_time (timestamp + max_refresh)
            then Some renderable
            else None
        | None => None
        end
    | None => None
    end in
  match cached with
  | Some renderable => (Ok renderable, self)
  | None =>
      match render task with
      | Ok renderable =>
          (Ok renderable,
           mk (max_refresh self)
              (<[Task.id task := (current_time, renderable)]>
                 (_renderable_cache self)))
      | Err e => (Err e, self)
      end
  end.

End ProgressColumn.

Section BuiltinColumns.

(** [str(timedelta(seconds=n))] and [filesize.decimal(n)]. *)
Variable timedelta_str : Z -> result string.
Variable filesize_decimal : Z -> result string.

(** [BarColumn.render]. *)
Definition BarColumn_render (bar_width : option Z) (task : Task.t)
  : result Renderable :=
  Ok (Bar (Task.total task) (Task.completed task) bar_width).



(** [TransferSpeedColumn.render]. *)
Definition TransferSpeedColumn_render (task : Task.t) : result Renderable :=
  (let? speed := Task.speed task in
   match speed with
   | None => Ok (Text "?" "progress.data.speed")
   | Some speed =>
       let? data_speed := filesize_decimal (py_int speed) in
       Ok (Text (data_speed ++ "/s") "progress.data.speed")
   end)%result.

End BuiltinColumns.

(** ** Reference definitions, written from the specification's wording *)

Module Spec.

(** Sum of [completed_delta] over a sample sequence. *)
Fixpoint delta_sum (samples : list ProgressSample.t) : Q :=
  match samples with
  | [] => 0%Q
  | s :: samples' => (ProgressSample.completed s + delta_sum samples')%Q
  end.

(** [span = last_sample.timestamp - first_sample.timestamp], when there is a
    sample. *)
Definition span (samples : list ProgressSample.t) : option Q :=
  match head samples, last samples with
  | Some first_sample, Some last_sample =>
      Some (ProgressSample.timestamp last_sample
            - ProgressSample.timestamp first_sample)%Q
  | _, _ => None
  end.

(** [speed]: [None] if the sample sequence is empty; otherwise [0] if the
    task was never started; otherwise [None] if [span == 0], else the sum of
    the deltas of all samples except the first, divided by [span].
    ([span] is undefined exactly on the empty sequence.) *)
Definition speed (self : Task.t) : option Q :=
  match span (Task._progress self) with
  | None => None
  | Some span =>
      match Task.start_time self with
      | None => Some 0%Q
      | Some _ =>
          if Qeq_bool span 0 then None
          else Some (delta_sum (tail (Task._progress self)) / span)%Q
      end
  end.


(** [time_remaining]: [0] if finished; [None] if [speed] is [None] or
    [speed == 0]; otherwise [round(remaining / speed)]. *)
Definition time_remaining (self : Task.t) : result (option Q) :=
  if Task.finished self then Ok (Some 0%Q)
  else
    (let? speed := Task.speed self in
     match speed with
     | None => Ok None
     | Some speed =>
         if Qeq_bool speed 0 then Ok None
         else Ok (Some (inject_Z (py_round (Task.remaining self / speed))))
     end)%result.

(** [clamp(x, lo, hi)] on doubles. *)
Definition clamp (x lo hi : spec_float) : spec_float :=
  if SFltb x lo then lo else if SFltb hi x then hi else x.

End Spec.

(** [0 <= r <= 100] for a number that [percentage] returns; a float is
    compared with the ints 0 and 100 by value, that is with [0.0] and
    [100.0]. *)
Definition in_percent_range (r : number) : bool :=
  match r with
  | PyInt z => Z.leb 0 z && Z.leb z 100
  | PyFloat x => SFleb float_zero x && SFleb x float_100
  end.

(** [r == x] for a number [r] and a double [x]; the one int that
    [percentage] returns, 100, is a double. *)
Definition equals_double (r : number) (x : spec_float) : bool :=
  match r with
  | PyInt z =>
      match float_of_int z with
      | Ok y => SFeqb y x
      | Err _ => false
      end
  | PyFloat y => SFeqb y x
  end.


(** ** Invariants of the registry *)

(** The timestamps of a sample sequence never decrease from front to back. *)
Fixpoint timestamps_sorted (samples : list ProgressSample.t) : bool :=
  match samples with
  | [] => true
  | s :: samples' =>
      match samples' with
      | [] => true
      | s' :: _ =>
          Qle_bool (ProgressSample.timestamp s) (ProgressSample.timestamp s')
      end && timestamps_sorted samples'
  end.

(** No sample is older than [bound]. *)
Definition all_since (bound : Q) (samples : list ProgressSample.t) : Prop :=
  forall s, In s samples -> (bound <= ProgressSample.timestamp s)%Q.

(** No sample is newer than [clock]. *)
Definition none_after (clock : Q) (samples : list ProgressSample.t) : bool :=
  forallb (fun s => Qle_bool (ProgressSample.timestamp s) clock) samples.

(** Every handle in the task table is below the handle counter. *)
Definition handles_fresh (self : Progress.t) : bool :=
  forallb (fun k => Z.ltb k (Progress._task_index self))
          (Progress.tasks_ids self).

(** One entry of the task table: its handle is below [index], its samples
    are sorted by timestamp and none is newer than [clock]. *)
Definition entry_ok (index : TaskID) (clock : Q) (entry : TaskID * Task.t)
  : Prop :=
  fst entry < index
  /\ timestamps_sorted (Task._progress (snd entry)) = true
  /\ none_after clock (Task._progress (snd entry)) = true.

(** The invariant of the registry at clock reading [clock]. *)
Definition registry_inv (clock : Q) (self : Progress.t) : Prop :=
  Forall (entry_ok (Progress._task_index self) clock) (Progress._tasks self)
  /\ NoDup (Progress.tasks_ids self).

(** The calls of the public interface, with their arguments. *)
Inductive call : Type :=
| CallStart (task_id : TaskID)
| CallStop (task_id : TaskID)
| CallUpdate (task_id : TaskID) (total completed advance : option Q)
             (visible : option bool) (fields : gmap string Value)
| CallRefresh (render : option exn)
| CallAddTask (render : option exn) (name : string) (start_ : bool)
              (total completed : Q) (visible : bool)
              (fields : gmap string Value)
| CallRemoveTask (task_id : TaskID).

(** One call executed at clock reading [now]; the returned handle of
    [add_task] is dropped. *)
Definition run_call (now : Q) (c : call) : Progress.M unit :=
  match c with
  | CallStart task_id => Progress.start now task_id
  | CallStop task_id => Progress.stop now task_id
  | CallUpdate task_id total completed advance visible fields =>
      Progress.update now task_id total completed advance visible fields
  | CallRefresh render => Progress.refresh render
  | CallAddTask render name start_ total completed visible fields =>
      Progress.bind
        (Progress.add_task now render name start_ total completed visible
                           fields)
        (fun _ => Progress.ret tt)
  | CallRemoveTask task_id => Progress.remove_task task_id
  end.

(** [reachable clock self]: [self] is the registry after a sequence of calls
    on a fresh [Progress], each of which returned normally, at clock readings
    that never decrease ([monotonic()]); [clock] is the latest reading. *)
Inductive reachable : Q -> Progress.t -> Prop :=
| reachable_init (clock period : Q) :
    reachable clock (Progress.init period)
| reachable_call (clock now : Q) (c : call) (self self' : Progress.t) :
    reachable clock self ->
    (clock <= now)%Q ->
    run_call now c self = (Ok tt, self') ->
    reachable now self'.

(** The outcome of one call of the public interface: only [add_task]
    returns something, its handle. *)
Definition exec_call (now : Q) (c : call) (self : Progress.t)
  : result (option TaskID) * Progress.t :=
  match c with
  | CallAddTask render name start_ total completed visible fields =>
      match Progress.add_task now render name start_ total completed visible
                              fields self with
      | (Ok task_id, self') => (Ok (Some task_id), self')
      | (Err e, self') => (Err e, self')
      end
  | _ =>
      match run_call now c self with
      | (Ok _, self') => (Ok None, self')
      | (Err e, self') => (Err e, self')
      end
  end.

(** A sequence of calls, each with its clock reading; the caller catches
    every exception and goes on.  The result is the list of the handles that
    [add_task] returned, oldest first, and the final registry. *)
Fixpoint exec_calls (calls : list (Q * call)) (self : Progress.t)
  : list TaskID * Progress.t :=
  match calls with
  | [] => ([], self)
  | (now, c) :: calls' =>
      let '(outcome, self') := exec_call now c self in
      let '(handles, self'') := exec_calls calls' self' in
      (match outcome with
       | Ok (Some task_id) => task_id :: handles
       | _ => handles
       end, self'')
  end.

(** Strictly increasing lists of handles. *)
Fixpoint increasing (handles : list TaskID) : Prop :=
  match handles with
  | [] => True
  | h :: handles' =>
      match handles' with
      | [] => True
      | h' :: _ => h < h'
      end /\ increasing handles'
  end.


(** ** Concrete tasks and registries used below *)

Definition sample (timestamp completed : Q) : ProgressSample.t :=
  ProgressSample.mk timestamp completed.

(** [Task(0, "job", 100, 0)]: never started, no samples. *)
Definition task_never_started : Task.t :=
  Task.mk 0 "job" 100 0 true ∅ None None [].

(** Started at 0, two samples 2 seconds apart, 1 step: speed 1/2. *)
Definition task_slow : Task.t :=
  Task.mk 0 "job" 100 0 true ∅ (Some 0%Q) None [sample 0 0; sample 2 1].

(** Started at 0, two samples 2 seconds apart, 5 steps: speed 5/2;
    10 steps remain. *)
Definition task_fast : Task.t :=
  Task.mk 0 "job" 15 5 true ∅ (Some 0%Q) None [sample 0 0; sample 2 5].

(** Started, one sample. *)
Definition task_one_sample : Task.t :=
  Task.mk 0 "job" 100 1 true ∅ (Some 0%Q) None [sample 1 1].

(** [Progress()] after [add_task("job", visible=False)] at time 0. *)
Definition progress_hidden_task : Progress.t :=
  snd (Progress.add_task 0 None "job" true 100 0 false ∅ (Progress.init 30)).

(** [Progress()] after [add_task("a")] and [add_task("b")]. *)
Definition progress_two_tasks : Progress.t :=
  snd (Progress.add_task 1 None "b" true 100 0 true ∅
         (snd (Progress.add_task 0 None "a" true 100 0 true ∅
                 (Progress.init 30)))).

(** [progress_two_tasks] after three updates of task 0, at 2, 12 and 30. *)
Definition progress_with_history : Progress.t :=
  snd (Progress.update 30 0 None None (Some 5%Q) None ∅
    (snd (Progress.update 12 0 None None (Some 4%Q) None ∅
      (snd (Progress.update 2 0 None None (Some 3%Q) None ∅
              progress_two_tasks))))).

(** Task 0 of [progress_with_history]. *)
Definition task_with_history : Task.t :=
  Task.mk 0 "a" 100 12 true ∅ (Some 0%Q) None
          [sample 2 3; sample 12 4; sample 30 5].


(** [Task(0, "job", 1, 10**400)] and [Task(0, "job", 10**17, 10**17 - 1)],
    reduced to the fields that [percentage] reads. *)
Definition pytask_huge : PyTask.t := PyTask.mk (PyInt 1) (PyInt (10 ^ 400)).
Definition pytask_almost_done : PyTask.t :=
  PyTask.mk (PyInt (10 ^ 17)) (PyInt (10 ^ 17 - 1)).

(** * Properties *)

(** ** Comparisons and sums *)

Lemma Qlt_bool_true (a b : Q) : Qlt_bool a b = true <-> (a < b)%Q.
Proof.
  unfold Qlt_bool. rewrite negb_true_iff. split.
  - intros H. apply Qnot_le_lt. intros Hle.
    apply Qle_bool_iff in Hle. congruence.
  - intros H. destruct (Qle_bool b a) eqn:E; [|reflexivity].
    apply Qle_bool_iff in E. exfalso. apply (Qlt_not_le _ _ H E).
Qed.

Lemma Qlt_bool_false (a b : Q) : Qlt_bool a b = false <-> (b <= a)%Q.
Proof.
  unfold Qlt_bool. rewrite negb_false_iff. apply Qle_bool_iff.
Qed.

Lemma Qeq_bool_false (a b : Q) : Qeq_bool a b = false <-> ~ (a == b)%Q.
Proof.
  split.
  - intros H Heq. apply Qeq_bool_iff in Heq. congruence.
  - intros H. destruct (Qeq_bool a b) eqn:E; [|reflexivity].
    apply Qeq_bool_iff in E. contradiction.
Qed.



Lemma last_cons_default (s d : ProgressSample.t)
    (samples : list ProgressSample.t) :
  last (s :: samples) = Some (List.last (s :: samples) d).
Proof.
  revert s. induction samples as [|s' samples IH]; intros s.
  - reflexivity.
  - change (last (s :: s' :: samples)) with (last (s' :: samples)).
    rewrite IH. reflexivity.
Qed.

Lemma span_cons (s : ProgressSample.t) (samples : list ProgressSample.t) :
  Spec.span (s :: samples)
  = Some (ProgressSample.timestamp (List.last (s :: samples) s)
          - ProgressSample.timestamp s)%Q.
Proof.
  unfold Spec.span. rewrite (last_cons_default s s). reflexivity.
Qed.

(** ** [Task.speed] *)



(** C4, as amended. [speed] is [None] exactly when the task was started and
    either has no sample or its first and last samples carry the same
    timestamp. *)
Theorem speed_none_iff (self : Task.t) :
  Task.speed self = Ok None
  <-> Task.start_time self <> None
      /\ (Task._progress self = []
          \/ exists span : Q,
               Spec.span (Task._progress self) = Some span /\ (span == 0)%Q).
Proof.
  unfold Task.speed.
  destruct (Task.start_time self) as [started|].
  2:{ split; [discriminate|]. intros [H _]. congruence. }
  destruct (Task._progress self) as [|first rest].
  { split; [|reflexivity]. intros _. split; [discriminate|]. left; reflexivity. }
  rewrite span_cons.
  set (total_time := (ProgressSample.timestamp (List.last (first :: rest) first)
                      - ProgressSample.timestamp first)%Q).
  destruct (Qeq_bool total_time 0) eqn:E.
  - split; [|reflexivity]. intros _. split; [discriminate|].
    right. exists total_time. split; [reflexivity|].
    apply Qeq_bool_iff. exact E.
  - unfold py_truediv. rewrite E. simpl. split; [discriminate|].
    intros [_ [H|[span [Hs Hz]]]]; [discriminate|].
    inversion Hs; subst span. apply Qeq_bool_false in E. contradiction.
Qed.

(** C4, counterexample. A started task with one sample has speed [None]
    although a sample is recorded; a task never started has speed [0.0]
    although no sample is recorded. *)
Lemma speed_none_counterexample :
  (Task.speed task_one_sample = Ok None /\ Task._progress task_one_sample <> [])
  /\ (Task.speed task_never_started = Ok (Some 0%Q)
      /\ Task._progress task_never_started = []).
Proof. repeat split. discriminate. Qed.

(** A started task with one sample: the span is zero, the speed [None]. *)
Lemma speed_none_iff_witness : Task.speed task_one_sample = Ok None.
Proof.
  apply (proj2 (speed_none_iff task_one_sample)).
  split; [discriminate|]. right. exists (1 - 1)%Q.
  split; reflexivity.
Defined.

(** ** [Task.time_remaining] *)

Lemma time_remaining_finished (self : Task.t) :
  Task.finished self = true -> Task.time_remaining self = Ok (Some 0%Q).
Proof. unfold Task.time_remaining. intros ->. reflexivity. Qed.

Lemma time_remaining_no_speed (self : Task.t) :
  Task.finished self = false -> Task.speed self = Ok None ->
  Task.time_remaining self = Ok None.
Proof. unfold Task.time_remaining. intros -> ->. reflexivity. Qed.


(** C1, the defect. [time_remaining] raises [ZeroDivisionError] on an
    unfinished task whose speed is [0] (never started) or [1/2], where the
    specified value is [None] and [round(100 / (1/2)) = 200]; and at speed
    [5/2] with 10 steps remaining it returns [round(10 / 2) = 5] where the
    specified value is [round(10 / (5/2)) = 4]. *)
Theorem time_remaining_divides_by_truncated_speed :
  (Task.speed task_never_started = Ok (Some 0%Q)
   /\ Task.time_remaining task_never_started = Err ZeroDivisionError
   /\ Spec.time_remaining task_never_started = Ok None)
  /\ (Task.speed task_slow = Ok (Some (1 # 2)%Q)
      /\ Task.time_remaining task_slow = Err ZeroDivisionError
      /\ Spec.time_remaining task_slow = Ok (Some 200%Q))
  /\ (Task.speed task_fast = Ok (Some (5 # 2)%Q)
      /\ Task.time_remaining task_fast = Ok (Some 5%Q)
      /\ Spec.time_remaining task_fast = Ok (Some 4%Q)).
Proof. repeat split. Qed.

(** ** Insertion-ordered dictionaries *)

Section DictFacts.
Context {V : Type}.
Implicit Types (d : dict V) (k : TaskID) (v : V).

Lemma dict_get_set_eq d k v : dict_get k (dict_set k v d) = Some v.
Proof.
  induction d as [|[k' v'] d IH]; simpl.
  - rewrite Z.eqb_refl. reflexivity.
  - destruct (Z.eqb k k') eqn:E; simpl.
    + rewrite Z.eqb_refl. reflexivity.
    + rewrite E. exact IH.
Qed.

Lemma dict_get_set_ne d k k' v :
  k <> k' -> dict_get k' (dict_set k v d) = dict_get k' d.
Proof.
  intros Hne. induction d as [|[k0 v0] d IH]; simpl.
  - destruct (Z.eqb_spec k' k); [congruence|reflexivity].
  - destruct (Z.eqb_spec k k0) as [->|Hk]; simpl.
    + destruct (Z.eqb_spec k' k0); [congruence|reflexivity].
    + rewrite IH. reflexivity.
Qed.

Lemma dict_set_set d k v v' : dict_set k v' (dict_set k v d) = dict_set k v' d.
Proof.
  induction d as [|[k0 v0] d IH]; simpl.
  - rewrite Z.eqb_refl. reflexivity.
  - destruct (Z.eqb k k0) eqn:E; simpl.
    + rewrite Z.eqb_refl. reflexivity.
    + rewrite E, IH. reflexivity.
Qed.

Lemma dict_get_none_keys d k : dict_get k d = None <-> k ∉ dict_keys d.
Proof.
  unfold dict_keys. induction d as [|[k0 v0] d IH]; simpl.
  - split; [intros _; apply not_elem_of_nil|reflexivity].
  - rewrite not_elem_of_cons, <- IH.
    destruct (Z.eqb_spec k k0); split; try discriminate; tauto.
Qed.

Lemma dict_get_some_in d k v : dict_get k d = Some v -> In (k, v) d.
Proof.
  induction d as [|[k0 v0] d IH]; simpl; [discriminate|].
  destruct (Z.eqb_spec k k0) as [->|_].
  - intros [= ->]. left; reflexivity.
  - intros H. right. exact (IH H).
Qed.

(** Assigning to a key that is present keeps the key order. *)
Lemma dict_keys_set_present d k v v0 :
  dict_get k d = Some v0 -> dict_keys (dict_set k v d) = dict_keys d.
Proof.
  unfold dict_keys. induction d as [|[k0 v1] d IH]; simpl; [discriminate|].
  destruct (Z.eqb_spec k k0) as [->|_]; simpl.
  - reflexivity.
  - intros H. rewrite (IH H). reflexivity.
Qed.

(** Assigning to a new key appends it. *)
Lemma dict_set_fresh d k v : dict_get k d = None -> dict_set k v d = d ++ [(k, v)].
Proof.
  induction d as [|[k0 v0] d IH]; simpl; [reflexivity|].
  destruct (Z.eqb k k0); [discriminate|].
  intros H. rewrite (IH H). reflexivity.
Qed.

Lemma dict_del_none d k : dict_get k d = None -> dict_del k d = None.
Proof.
  induction d as [|[k0 v0] d IH]; simpl; [reflexivity|].
  destruct (Z.eqb k k0); [discriminate|].
  intros H. rewrite (IH H). reflexivity.
Qed.

Lemma dict_del_some d k v : dict_get k d = Some v -> exists d', dict_del k d = Some d'.
Proof.
  induction d as [|[k0 v0] d IH]; simpl; [discriminate|].
  destruct (Z.eqb k k0); [eauto|].
  intros H. destruct (IH H) as [d' ->]. eauto.
Qed.


Lemma dict_set_Forall (P : TaskID * V -> Prop) d k v :
  P (k, v) -> Forall P d -> Forall P (dict_set k v d).
Proof.
  intros Hk. induction 1 as [|[k0 v0] d H0 Hd IH]; simpl.
  - repeat constructor. exact Hk.
  - destruct (Z.eqb k k0); constructor; assumption.
Qed.

Lemma dict_del_Forall (P : TaskID * V -> Prop) d d' k :
  dict_del k d = Some d' -> Forall P d -> Forall P d'.
Proof.
  intros Hdel Hall. revert d' Hdel.
  induction Hall as [|[k0 v0] d H0 Hd IH]; simpl; intros d' Hdel; [discriminate|].
  destruct (Z.eqb k k0).
  - injection Hdel as <-. exact Hd.
  - destruct (dict_del k d) as [d''|]; [|discriminate].
    injection Hdel as <-. constructor; [exact H0|]. apply IH. reflexivity.
Qed.

End DictFacts.

(** ** Unknown handles *)

Ltac unfold_progress :=
  unfold Progress.add_task;
  unfold Progress.start, Progress.stop, Progress.update, Progress.remove_task,
    Progress.refresh, Progress.lookup_task,
    Progress.store_task, Progress.bind, Progress.get, Progress.ret,
    Progress.raise, Progress.modify.

(** A handle is unknown exactly when [tasks_ids] does not list it. *)
Lemma unknown_iff_not_listed (self : Progress.t) (task_id : TaskID) :
  dict_get task_id (Progress._tasks self) = None
  <-> task_id ∉ Progress.tasks_ids self.
Proof. apply dict_get_none_keys. Qed.

(** C8. Called with a handle that the task table does not hold, each of
    [start], [stop], [update] and [remove_task] raises [KeyError] for that
    handle and leaves the registry exactly as it was. *)
Theorem unknown_task_raises (self : Progress.t) (now : Q) (task_id : TaskID)
    (total completed advance : option Q) (visible : option bool)
    (fields : gmap string Value) :
  dict_get task_id (Progress._tasks self) = None ->
  Progress.start now task_id self = (Err (KeyError task_id), self)
  /\ Progress.stop now task_id self = (Err (KeyError task_id), self)
  /\ Progress.update now task_id total completed advance visible fields self
     = (Err (KeyError task_id), self)
  /\ Progress.remove_task task_id self = (Err (KeyError task_id), self).
Proof.
  intros Hget. unfold_progress. rewrite Hget, (dict_del_none _ _ Hget).
  repeat split.
Qed.

(** Handle 7 was never allocated in a registry of two tasks. *)
Lemma unknown_task_raises_witness :
  Progress.start 5 7 progress_two_tasks = (Err (KeyError 7), progress_two_tasks)
  /\ Progress.stop 5 7 progress_two_tasks
     = (Err (KeyError 7), progress_two_tasks)
  /\ Progress.update 5 7 None None (Some 1%Q) None ∅ progress_two_tasks
     = (Err (KeyError 7), progress_two_tasks)
  /\ Progress.remove_task 7 progress_two_tasks
     = (Err (KeyError 7), progress_two_tasks).
Proof.
  apply (unknown_task_raises progress_two_tasks 5 7 None None (Some 1%Q) None ∅).
  reflexivity.
Defined.

(** ** [Progress.update] *)

(** The task that [update] stores back, in closed form. *)
Lemma update_known (self : Progress.t) (now : Q) (task_id : TaskID)
    (total completed advance : option Q) (visible : option bool)
    (fields : gmap string Value) (task : Task.t) :
  dict_get task_id (Progress._tasks self) = Some task ->
  let completed_after :=
    match completed, advance with
    | Some c, _ => c
    | None, Some a => (Task.completed task + a)%Q
    | None, None => Task.completed task
    end in
  let task' :=
    Task.mk (Task.id task) (Task.name task)
      (match total with Some v => v | None => Task.total task end)
      completed_after
      (match visible with Some _ => true | None => Task.visible task end)
      (fields ∪ Task.fields task)
      (Task.start_time task) (Task.stop_time task)
      (Progress.popleft_old (now - Progress.speed_estimate_period self)
                            (Task._progress task)
       ++ [ProgressSample.mk now (completed_after - Task.completed task)]) in
  Progress.update now task_id total completed advance visible fields self
  = (Ok tt, Progress.set_tasks
              (dict_set task_id task' (Progress._tasks self)) self).
Proof.
  intros Hget. unfold_progress. rewrite Hget.
  destruct total, completed, advance, visible; reflexivity.
Qed.

(** The eviction loop drops a prefix. *)
Lemma popleft_old_suffix (old : Q) (samples : list ProgressSample.t) :
  exists dropped, samples = dropped ++ Progress.popleft_old old samples.
Proof.
  induction samples as [|s samples [dropped IH]]; simpl.
  - exists []. reflexivity.
  - destruct (Qlt_bool (ProgressSample.timestamp s) old).
    + exists (s :: dropped). simpl. rewrite <- IH. reflexivity.
    + exists []. reflexivity.
Qed.



(** C3, the defect. On a registry whose only task was added with
    [visible=False], [update(0, visible=False)] returns normally and leaves
    the task with [visible = True]: line 339 assigns the constant [True],
    not the argument. *)
Theorem update_visible_false_sets_true :
  option_map Task.visible (dict_get 0 (Progress._tasks progress_hidden_task))
  = Some false
  /\ fst (Progress.update 1 0 None None None (Some false) ∅
            progress_hidden_task) = Ok tt
  /\ option_map Task.visible
       (dict_get 0 (Progress._tasks
                      (snd (Progress.update 1 0 None None None (Some false) ∅
                              progress_hidden_task))))
     = Some true.
Proof. repeat split. Qed.

(** Whatever boolean is passed, the flag ends up [True]. *)
Lemma update_visible_any (self : Progress.t) (now : Q) (task_id : TaskID)
    (v : bool) (task : Task.t) :
  dict_get task_id (Progress._tasks self) = Some task ->
  option_map Task.visible
    (dict_get task_id
       (Progress._tasks
          (snd (Progress.update now task_id None None None (Some v) ∅ self))))
  = Some true.
Proof.
  intros Hget.
  rewrite (update_known self now task_id None None None (Some v) ∅ task Hget).
  simpl. rewrite dict_get_set_eq. reflexivity.
Qed.

(** ** The sample window *)

Lemma timestamps_sorted_tail (s : ProgressSample.t)
    (samples : list ProgressSample.t) :
  timestamps_sorted (s :: samples) = true -> timestamps_sorted samples = true.
Proof.
  simpl. intros H. apply andb_true_iff in H. tauto.
Qed.

(** In a sorted sequence the front sample is the oldest. *)
Lemma timestamps_sorted_front (s : ProgressSample.t)
    (samples : list ProgressSample.t) :
  timestamps_sorted (s :: samples) = true ->
  all_since (ProgressSample.timestamp s) (s :: samples).
Proof.
  revert s. induction samples as [|s' samples IH]; intros s Hs x Hx.
  - destruct Hx as [<-|[]]. lra.
  - destruct Hx as [<-|Hx]; [lra|].
    simpl in Hs. apply andb_true_iff in Hs. destruct Hs as [Hle Hs].
    apply Qle_bool_iff in Hle.
    specialize (IH s' Hs x Hx). lra.
Qed.




(** ** [Progress.add_task] and [Progress.remove_task] *)

(** When the rendering pass returns, [add_task] returns the current value of
    the handle counter, stores the new task under it and advances the
    counter. *)
Lemma add_task_returns (self : Progress.t) (now : Q) (name : string)
    (start_ : bool) (total completed : Q) (visible : bool)
    (fields : gmap string Value) :
  let task :=
    Task.mk (Progress._task_index self) name total completed visible fields
            (if start_ then Some now else None) None [] in
  Progress.add_task now None name start_ total completed visible fields self
  = (Ok (Progress._task_index self),
     Progress.mk (Progress.speed_estimate_period self)
       (dict_set (Progress._task_index self) task (Progress._tasks self))
       (Progress._task_index self + 1)
       (Progress._refresh_count self + 1)).
Proof.
  unfold_progress. destruct start_; simpl.
  - rewrite dict_get_set_eq. simpl. rewrite dict_set_set. reflexivity.
  - reflexivity.
Qed.

(** When the rendering pass raises, [add_task] propagates the exception
    after the task was stored and before the counter is advanced. *)
Lemma add_task_render_raises (self : Progress.t) (now : Q) (e : exn)
    (name : string) (start_ : bool) (total completed : Q) (visible : bool)
    (fields : gmap string Value) :
  let task :=
    Task.mk (Progress._task_index self) name total completed visible fields
            (if start_ then Some now else None) None [] in
  Progress.add_task now (Some e) name start_ total completed visible fields self
  = (Err e,
     Progress.set_tasks
       (dict_set (Progress._task_index self) task (Progress._tasks self)) self).
Proof.
  unfold_progress. destruct start_; simpl.
  - rewrite dict_get_set_eq. simpl. rewrite dict_set_set. reflexivity.
  - reflexivity.
Qed.

Lemma handles_fresh_unknown (self : Progress.t) :
  handles_fresh self = true ->
  dict_get (Progress._task_index self) (Progress._tasks self) = None.
Proof.
  unfold handles_fresh. intros H. apply dict_get_none_keys.
  intros Hin. rewrite forallb_forall in H.
  apply list_elem_of_In in Hin. specialize (H _ Hin).
  apply Z.ltb_lt in H. lia.
Qed.




(** ** [finished] *)

Lemma forallb_dict_set (f : Task.t -> bool) (d : dict Task.t) (k : TaskID)
    (v : Task.t) :
  f v = true -> forallb f (dict_values d) = true ->
  forallb f (dict_values (dict_set k v d)) = true.
Proof.
  intros Hv. unfold dict_values.
  induction d as [|[k0 v0] d IH]; simpl.
  - rewrite Hv. reflexivity.
  - intros H. apply andb_true_iff in H. destruct H as [H0 Hd].
    destruct (Z.eqb k k0); simpl.
    + rewrite Hv. exact Hd.
    + rewrite H0. exact (IH Hd).
Qed.

Lemma progress_finished_forallb (self : Progress.t) :
  Progress.finished self = forallb Task.finished (dict_values (Progress._tasks self)).
Proof.
  unfold Progress.finished. destruct (Progress._tasks self); reflexivity.
Qed.

(** C10. A task added with [total = 0] and [completed = 0] is finished as
    soon as [add_task] returns, while its percentage is [0.0]; the registry's
    [finished] query is true after the call whenever it was true before, in
    particular on a fresh registry. *)
Theorem zero_total_task_finished (self : Progress.t) (now : Q) (name : string)
    (start_ visible : bool) (fields : gmap string Value) :
  exists (task_id : TaskID) (self' : Progress.t) (task : Task.t),
    Progress.add_task now None name start_ 0 0 visible fields self
    = (Ok task_id, self')
    /\ dict_get task_id (Progress._tasks self') = Some task
    /\ Task.total task = 0%Q
    /\ Task.completed task = 0%Q
    /\ Task.finished task = true
    /\ Task.percentage task = Ok 0%Q
    /\ (Progress.finished self = true -> Progress.finished self' = true).
Proof.
  pose proof (add_task_returns self now name start_ 0 0 visible fields) as Hadd.
  cbv zeta in Hadd. eexists. eexists. eexists. split; [exact Hadd|].
  cbn [Progress._tasks]. split; [apply dict_get_set_eq|].
  repeat split.
  rewrite !progress_finished_forallb. cbn [Progress._tasks].
  apply forallb_dict_set. reflexivity.
Qed.

(** On a fresh registry: the task is finished, at 0 percent, and the
    registry reports finished. *)
Lemma zero_total_task_finished_witness :
  Progress.finished (Progress.init 30) = true
  /\ exists (task_id : TaskID) (self' : Progress.t) (task : Task.t),
       Progress.add_task 0 None "empty" true 0 0 true ∅ (Progress.init 30)
       = (Ok task_id, self')
       /\ dict_get task_id (Progress._tasks self') = Some task
       /\ Task.finished task = true
       /\ Task.percentage task = Ok 0%Q
       /\ Progress.finished self' = true.
Proof.
  split; [reflexivity|].
  destruct (zero_total_task_finished (Progress.init 30) 0 "empty" true true ∅)
    as (task_id & self' & task & Hadd & Hget & _ & _ & Hfin & Hpct & Hall).
  exists task_id, self', task. repeat split; try assumption.
  apply Hall. reflexivity.
Defined.

(** ** The invariant holds in every reachable registry *)

Lemma none_after_mono (clock now : Q) (samples : list ProgressSample.t) :
  (clock <= now)%Q -> none_after clock samples = true ->
  none_after now samples = true.
Proof.
  intros Hle. unfold none_after. rewrite !forallb_forall.
  intros H s Hs. specialize (H s Hs).
  apply Qle_bool_iff. apply Qle_bool_iff in H. lra.
Qed.

Lemma timestamps_sorted_app_r (front back : list ProgressSample.t) :
  timestamps_sorted (front ++ back) = true -> timestamps_sorted back = true.
Proof.
  induction front as [|s front IH]; [tauto|].
  intros H. apply IH. exact (timestamps_sorted_tail _ _ H).
Qed.

Lemma none_after_app_r (clock : Q) (front back : list ProgressSample.t) :
  none_after clock (front ++ back) = true -> none_after clock back = true.
Proof.
  unfold none_after. rewrite forallb_app. intros H.
  apply andb_true_iff in H. tauto.
Qed.

(** Appending a sample stamped with the current clock keeps the order. *)
Lemma timestamps_sorted_snoc (now delta : Q) (samples : list ProgressSample.t) :
  timestamps_sorted samples = true -> none_after now samples = true ->
  timestamps_sorted (samples ++ [ProgressSample.mk now delta]) = true
  /\ none_after now (samples ++ [ProgressSample.mk now delta]) = true.
Proof.
  intros Hs Hn. split.
  - induction samples as [|s samples IH]; [reflexivity|].
    simpl in Hn. apply andb_true_iff in Hn. destruct Hn as [Hs0 Hn].
    pose proof (timestamps_sorted_tail _ _ Hs) as Hs'.
    specialize (IH Hs' Hn).
    destruct samples as [|s' samples].
    + simpl. rewrite Hs0. reflexivity.
    + simpl in Hs. apply andb_true_iff in Hs. destruct Hs as [Hle _].
      change (Qle_bool (ProgressSample.timestamp s) (ProgressSample.timestamp s')
              && timestamps_sorted ((s' :: samples) ++ [ProgressSample.mk now delta])
              = true).
      rewrite Hle, IH. reflexivity.
  - unfold none_after in *. rewrite forallb_app, Hn. simpl.
    replace (Qle_bool now now) with true; [reflexivity|].
    symmetry. apply Qle_bool_iff. lra.
Qed.

Lemma entry_ok_mono (index index' : TaskID) (clock now : Q)
    (entry : TaskID * Task.t) :
  index <= index' -> (clock <= now)%Q ->
  entry_ok index clock entry -> entry_ok index' now entry.
Proof.
  intros Hi Hc (Hk & Hs & Hn). split; [lia|]. split; [exact Hs|].
  exact (none_after_mono _ _ _ Hc Hn).
Qed.

Lemma dict_del_keys {V : Type} (d d' : dict V) (k : TaskID) :
  dict_del k d = Some d' ->
  exists before after,
    dict_keys d = before ++ k :: after /\ dict_keys d' = before ++ after.
Proof.
  unfold dict_keys. revert d'.
  induction d as [|[k0 v0] d IH]; simpl; intros d' Hdel; [discriminate|].
  destruct (Z.eqb_spec k k0) as [->|_].
  - injection Hdel as <-. exists [], (map fst d). split; reflexivity.
  - destruct (dict_del k d) as [d''|]; [|discriminate].
    injection Hdel as <-.
    destruct (IH d'' eq_refl) as (before & after & H1 & H2).
    exists (k0 :: before), after. simpl. rewrite H1, H2. split; reflexivity.
Qed.

Lemma registry_inv_lookup (clock : Q) (self : Progress.t) (task_id : TaskID)
    (task : Task.t) :
  registry_inv clock self ->
  dict_get task_id (Progress._tasks self) = Some task ->
  task_id < Progress._task_index self
  /\ timestamps_sorted (Task._progress task) = true
  /\ none_after clock (Task._progress task) = true.
Proof.
  intros [Hall _] Hget. rewrite List.Forall_forall in Hall.
  exact (Hall _ (dict_get_some_in _ _ _ Hget)).
Qed.

(** Storing back a task whose samples are in order, under a handle that is
    present, keeps the invariant. *)
Lemma registry_inv_store (clock now : Q) (self : Progress.t)
    (task_id : TaskID) (task task' : Task.t) :
  (clock <= now)%Q ->
  registry_inv clock self ->
  dict_get task_id (Progress._tasks self) = Some task ->
  timestamps_sorted (Task._progress task') = true ->
  none_after now (Task._progress task') = true ->
  registry_inv now
    (Progress.set_tasks (dict_set task_id task' (Progress._tasks self)) self).
Proof.
  intros Hle Hinv Hget Hs Hn.
  pose proof (registry_inv_lookup _ _ _ _ Hinv Hget) as (Hk & _ & _).
  destruct Hinv as [Hall Hnd]. split.
  - simpl. apply dict_set_Forall.
    + split; [exact Hk|]. split; assumption.
    + eapply Forall_impl; [exact Hall|].
      intros entry. apply entry_ok_mono; [lia|exact Hle].
  - unfold Progress.tasks_ids in *. simpl.
    rewrite (dict_keys_set_present _ _ _ _ Hget). exact Hnd.
Qed.

Lemma registry_inv_clock (clock now : Q) (self : Progress.t) :
  (clock <= now)%Q -> registry_inv clock self -> registry_inv now self.
Proof.
  intros Hle [Hall Hnd]. split; [|exact Hnd].
  eapply Forall_impl; [exact Hall|].
  intros entry. apply entry_ok_mono; [lia|exact Hle].
Qed.

(** One call that returns keeps the invariant, at the new clock reading. *)
Lemma run_call_inv (clock now : Q) (c : call) (self self' : Progress.t) :
  (clock <= now)%Q ->
  registry_inv clock self ->
  run_call now c self = (Ok tt, self') ->
  registry_inv now self'.
Proof.
  intros Hle Hinv Hrun.
  destruct c as [task_id|task_id|task_id total completed advance visible fields
                |render|render name start_ total completed visible fields
                |task_id]; simpl in Hrun.
  - (* start *)
    destruct (dict_get task_id (Progress._tasks self)) as [task|] eqn:Hget;
      revert Hrun; unfold_progress; rewrite Hget; [|discriminate].
    intros [= <-].
    pose proof (registry_inv_lookup _ _ _ _ Hinv Hget) as (_ & Hs & Hn).
    apply (registry_inv_store clock now self task_id task); try assumption.
    exact (none_after_mono _ _ _ Hle Hn).
  - (* stop *)
    destruct (dict_get task_id (Progress._tasks self)) as [task|] eqn:Hget;
      revert Hrun; unfold_progress; rewrite Hget; [|discriminate].
    intros [= <-].
    pose proof (registry_inv_lookup _ _ _ _ Hinv Hget) as (_ & Hs & Hn).
    apply (registry_inv_store clock now self task_id task); try assumption.
    + destruct (Task.start_time task); exact Hs.
    + destruct (Task.start_time task); exact (none_after_mono _ _ _ Hle Hn).
  - (* update *)
    destruct (dict_get task_id (Progress._tasks self)) as [task|] eqn:Hget.
    2:{ revert Hrun. unfold_progress. rewrite Hget. discriminate. }
    rewrite (update_known _ _ _ _ _ _ _ _ _ Hget) in Hrun.
    injection Hrun as <-.
    pose proof (registry_inv_lookup _ _ _ _ Hinv Hget) as (_ & Hs & Hn).
    destruct (popleft_old_suffix (now - Progress.speed_estimate_period self)
                (Task._progress task)) as [dropped Hd].
    rewrite Hd in Hs, Hn.
    apply timestamps_sorted_app_r in Hs. apply none_after_app_r in Hn.
    apply (none_after_mono _ _ _ Hle) in Hn.
    apply (registry_inv_store clock now self task_id task); try assumption;
      simpl; apply timestamps_sorted_snoc; assumption.
  - (* refresh *)
    destruct render as [e|]; revert Hrun; unfold_progress; [discriminate|].
    intros [= <-]. exact (registry_inv_clock _ _ _ Hle Hinv).
  - (* add_task *)
    destruct render as [e|]; unfold Progress.bind in Hrun.
    { rewrite add_task_render_raises in Hrun. discriminate. }
    rewrite add_task_returns in Hrun. injection Hrun as <-.
    destruct Hinv as [Hall Hnd].
    assert (Hfresh : dict_get (Progress._task_index self) (Progress._tasks self)
                     = None).
    { apply dict_get_none_keys. intros Hin.
      apply list_elem_of_In, in_map_iff in Hin.
      destruct Hin as ([k v] & Hk & Hin). simpl in Hk. subst k.
      rewrite List.Forall_forall in Hall.
      destruct (Hall _ Hin) as (Hlt & _). simpl in Hlt. lia. }
    split.
    + simpl. apply dict_set_Forall.
      * split; [simpl; lia|]. split; reflexivity.
      * eapply Forall_impl; [exact Hall|].
        intros entry. apply entry_ok_mono; [lia|exact Hle].
    + unfold Progress.tasks_ids in *. simpl.
      rewrite (dict_set_fresh _ _ _ Hfresh). unfold dict_keys in *.
      rewrite map_app. simpl. apply NoDup_app. split; [exact Hnd|].
      split; [|apply NoDup_singleton].
      intros k Hk Hk'. apply list_elem_of_singleton in Hk'. subst k.
      apply dict_get_none_keys in Hfresh. exact (Hfresh Hk).
  - (* remove_task *)
    revert Hrun. unfold_progress.
    destruct (dict_del task_id (Progress._tasks self)) as [tasks|] eqn:Hdel;
      [|discriminate].
    intros [= <-]. destruct Hinv as [Hall Hnd]. split.
    + simpl. apply (dict_del_Forall _ _ _ _ Hdel).
      eapply Forall_impl; [exact Hall|].
      intros entry. apply entry_ok_mono; [lia|exact Hle].
    + unfold Progress.tasks_ids in *. simpl.
      destruct (dict_del_keys _ _ _ Hdel) as (before & after & H1 & H2).
      rewrite H1 in Hnd. rewrite H2.
      apply NoDup_app in Hnd. destruct Hnd as (Hb & Hdisj & Ha).
      apply NoDup_cons in Ha. destruct Ha as [_ Ha].
      apply NoDup_app. split; [exact Hb|]. split; [|exact Ha].
      intros k Hk Hk'. apply (Hdisj k Hk). right. exact Hk'.
Qed.

(** Every registry reached from a fresh one through calls that returned, at
    clock readings that never decrease, satisfies the invariant. *)
Lemma reachable_inv (clock : Q) (self : Progress.t) :
  reachable clock self -> registry_inv clock self.
Proof.
  induction 1 as [clock period|clock now c self self' _ IH Hle Hrun].
  - split; [constructor|]. apply NoDup_nil. constructor.
  - exact (run_call_inv clock now c self self' Hle IH Hrun).
Qed.

(** In a reachable registry every handle is below the handle counter. *)
Lemma reachable_handles_fresh (clock : Q) (self : Progress.t) :
  reachable clock self -> handles_fresh self = true.
Proof.
  intros Hr. destruct (reachable_inv _ _ Hr) as [Hall _].
  unfold handles_fresh, Progress.tasks_ids, dict_keys.
  apply forallb_forall. intros k Hk. apply in_map_iff in Hk.
  destruct Hk as (entry & <- & Hin). rewrite List.Forall_forall in Hall.
  destruct (Hall _ Hin) as (Hlt & _). apply Z.ltb_lt. exact Hlt.
Qed.

(** In a reachable registry every sample sequence is sorted by timestamp. *)
Lemma reachable_timestamps_sorted (clock : Q) (self : Progress.t)
    (task_id : TaskID) (task : Task.t) :
  reachable clock self ->
  dict_get task_id (Progress._tasks self) = Some task ->
  timestamps_sorted (Task._progress task) = true.
Proof.
  intros Hr Hget.
  destruct (registry_inv_lookup _ _ _ _ (reachable_inv _ _ Hr) Hget)
    as (_ & Hs & _).
  exact Hs.
Qed.

(** In a reachable registry a handle that was removed is unknown, and so is
    a handle that was never allocated. *)
Lemma reachable_removed_unknown (clock : Q) (self self' : Progress.t)
    (task_id : TaskID) :
  reachable clock self ->
  Progress.remove_task task_id self = (Ok tt, self') ->
  dict_get task_id (Progress._tasks self') = None.
Proof.
  intros Hr. destruct (reachable_inv _ _ Hr) as [_ Hnd].
  unfold_progress.
  destruct (dict_del task_id (Progress._tasks self)) as [tasks|] eqn:Hdel;
    [|discriminate].
  intros [= <-]. simpl. apply dict_get_none_keys.
  destruct (dict_del_keys _ _ _ Hdel) as (before & after & H1 & H2).
  unfold Progress.tasks_ids in Hnd. rewrite H1 in Hnd. rewrite H2.
  apply NoDup_app in Hnd. destruct Hnd as (_ & Hdisj & Ha).
  apply NoDup_cons in Ha. destruct Ha as [Hna _].
  intros Hin. apply elem_of_app in Hin. destruct Hin as [Hin|Hin].
  - apply (Hdisj _ Hin). left.
  - exact (Hna Hin).
Qed.

Lemma reachable_unallocated_unknown (clock : Q) (self : Progress.t)
    (task_id : TaskID) :
  reachable clock self ->
  Progress._task_index self <= task_id ->
  dict_get task_id (Progress._tasks self) = None.
Proof.
  intros Hr Hge. destruct (reachable_inv _ _ Hr) as [Hall _].
  apply dict_get_none_keys. intros Hin.
  apply list_elem_of_In, in_map_iff in Hin.
  destruct Hin as (entry & <- & Hin). rewrite List.Forall_forall in Hall.
  destruct (Hall _ Hin) as (Hlt & _). lia.
Qed.

(** The registries used as examples are reachable. *)
Lemma progress_two_tasks_reachable : reachable 1 progress_two_tasks.
Proof.
  apply (reachable_call 0 1 (CallAddTask None "b" true 100 0 true ∅)
           (snd (Progress.add_task 0 None "a" true 100 0 true ∅
                   (Progress.init 30)))); [|lra|reflexivity].
  apply (reachable_call 0 0 (CallAddTask None "a" true 100 0 true ∅)
           (Progress.init 30)); [|lra|reflexivity].
  apply reachable_init.
Qed.

(** An [add_task] whose rendering pass raised leaves its task stored under
    the handle the counter still points at: the registry it leaves is not
    one of the reachable ones above. *)
Lemma add_task_aborted_handle_not_fresh :
  handles_fresh
    (snd (Progress.add_task 0 (Some ZeroDivisionError) "a" false 100 0 true ∅
            (Progress.init 30)))
  = false.
Proof. reflexivity. Qed.

(** * Further properties of the code *)

(** ** [start], [stop] and [elapsed] *)

Lemma start_known (self : Progress.t) (now : Q) (task_id : TaskID)
    (task : Task.t) :
  dict_get task_id (Progress._tasks self) = Some task ->
  Progress.start now task_id self
  = (Ok tt,
     Progress.set_tasks
       (dict_set task_id (Task.set_start_time (Some now) task)
                 (Progress._tasks self)) self).
Proof. intros Hget. unfold_progress. rewrite Hget. reflexivity. Qed.

Lemma stop_known (self : Progress.t) (now : Q) (task_id : TaskID)
    (task : Task.t) :
  dict_get task_id (Progress._tasks self) = Some task ->
  Progress.stop now task_id self
  = (Ok tt,
     Progress.set_tasks
       (dict_set task_id
          (Task.set_stop_time (Some now)
             (match Task.start_time task with
              | None => Task.set_start_time (Some now) task
              | Some _ => task
              end))
          (Progress._tasks self)) self).
Proof. intros Hget. unfold_progress. rewrite Hget. reflexivity. Qed.

(** X1. [stop] on a known task that was never started returns and leaves
    the task with [start_time = stop_time = now]; its [elapsed] is then
    defined and zero at every later clock reading. *)
Theorem stop_never_started_backfills (self : Progress.t) (now : Q)
    (task_id : TaskID) (task : Task.t) :
  dict_get task_id (Progress._tasks self) = Some task ->
  Task.start_time task = None ->
  exists (self' : Progress.t) (task' : Task.t),
    Progress.stop now task_id self = (Ok tt, self')
    /\ dict_get task_id (Progress._tasks self') = Some task'
    /\ Task.start_time task' = Some now
    /\ Task.stop_time task' = Some now
    /\ forall clock : Q,
         exists e : Q, Task.elapsed clock task' = Some e /\ (e == 0)%Q.
Proof.
  intros Hget Hstart. rewrite (stop_known _ _ _ _ Hget), Hstart.
  eexists. eexists. split; [reflexivity|]. simpl.
  split; [apply dict_get_set_eq|]. split; [reflexivity|].
  split; [reflexivity|]. intros clock. unfold Task.elapsed. simpl.
  eexists. split; [reflexivity|]. ring.
Qed.

(** X2. [stop] on a known task that was started at [t0] keeps [t0], and
    from then on [elapsed] is [now - t0] whatever the clock reads: the
    elapsed time is frozen.  The handle order and the other tasks are
    untouched. *)
Theorem stop_freezes_elapsed (self : Progress.t) (now t0 : Q)
    (task_id : TaskID) (task : Task.t) :
  dict_get task_id (Progress._tasks self) = Some task ->
  Task.start_time task = Some t0 ->
  exists (self' : Progress.t) (task' : Task.t),
    Progress.stop now task_id self = (Ok tt, self')
    /\ dict_get task_id (Progress._tasks self') = Some task'
    /\ Task.start_time task' = Some t0
    /\ (forall clock : Q, Task.elapsed clock task' = Some (now - t0)%Q)
    /\ Progress.tasks_ids self' = Progress.tasks_ids self
    /\ (forall other : TaskID,
          other <> task_id ->
          dict_get other (Progress._tasks self')
          = dict_get other (Progress._tasks self)).
Proof.
  intros Hget Hstart. rewrite (stop_known _ _ _ _ Hget), Hstart.
  eexists. eexists. split; [reflexivity|]. simpl.
  split; [apply dict_get_set_eq|]. split; [exact Hstart|]. split.
  { intros clock. unfold Task.elapsed. simpl. rewrite Hstart. reflexivity. }
  split.
  { unfold Progress.tasks_ids. simpl.
    exact (dict_keys_set_present _ _ _ _ Hget). }
  intros other Hne. simpl. apply dict_get_set_ne. congruence.
Qed.

(** X3. [start] overwrites [start_time] with the current clock reading and
    touches nothing else of the task: a task that was stopped at [t1] and is
    started again later keeps [stop_time = t1], so its [elapsed] becomes
    negative. *)
Theorem start_after_stop_negative_elapsed (self : Progress.t) (now t1 : Q)
    (task_id : TaskID) (task : Task.t) :
  dict_get task_id (Progress._tasks self) = Some task ->
  Task.stop_time task = Some t1 ->
  (t1 < now)%Q ->
  exists (self' : Progress.t) (task' : Task.t),
    Progress.start now task_id self = (Ok tt, self')
    /\ dict_get task_id (Progress._tasks self') = Some task'
    /\ task' = Task.set_start_time (Some now) task
    /\ Task.stop_time task' = Some t1
    /\ forall clock : Q,
         exists e : Q, Task.elapsed clock task' = Some e /\ (e < 0)%Q.
Proof.
  intros Hget Hstop Hlt. rewrite (start_known _ _ _ _ Hget).
  eexists. eexists. split; [reflexivity|]. simpl.
  split; [apply dict_get_set_eq|]. split; [reflexivity|].
  split; [exact Hstop|]. intros clock. unfold Task.elapsed. simpl.
  rewrite Hstop. eexists. split; [reflexivity|]. lra.
Qed.

Lemma stop_never_started_backfills_witness :
  exists (self' : Progress.t) (task' : Task.t),
    Progress.stop 7 0 (Progress.mk 30 [(0, task_never_started)] 1 1)
    = (Ok tt, self')
    /\ dict_get 0 (Progress._tasks self') = Some task'
    /\ Task.start_time task' = Some 7%Q
    /\ Task.stop_time task' = Some 7%Q
    /\ forall clock : Q,
         exists e : Q, Task.elapsed clock task' = Some e /\ (e == 0)%Q.
Proof.
  apply (stop_never_started_backfills
           (Progress.mk 30 [(0, task_never_started)] 1 1) 7 0
           task_never_started); reflexivity.
Defined.

Lemma stop_freezes_elapsed_witness :
  exists (self' : Progress.t) (task' : Task.t),
    Progress.stop 9 0 progress_with_history = (Ok tt, self')
    /\ dict_get 0 (Progress._tasks self') = Some task'
    /\ forall clock : Q, Task.elapsed clock task' = Some (9 - 0)%Q.
Proof.
  destruct (stop_freezes_elapsed progress_with_history 9 0 0
              task_with_history eq_refl eq_refl)
    as (self' & task' & Hstop & Hget & _ & Hel & _).
  exists self', task'. repeat split; assumption.
Defined.

Lemma start_after_stop_negative_elapsed_witness :
  exists (self' : Progress.t) (task' : Task.t),
    Progress.start 9 0
      (Progress.mk 30
         [(0, Task.mk 0 "job" 100 0 true ∅ (Some 1%Q) (Some 4%Q) [])] 1 1)
    = (Ok tt, self')
    /\ dict_get 0 (Progress._tasks self') = Some task'
    /\ Task.elapsed 20 task' = Some (4 - 9)%Q.
Proof.
  destruct (start_after_stop_negative_elapsed
              (Progress.mk 30
                 [(0, Task.mk 0 "job" 100 0 true ∅ (Some 1%Q) (Some 4%Q) [])]
                 1 1)
              9 4 0
              (Task.mk 0 "job" 100 0 true ∅ (Some 1%Q) (Some 4%Q) [])
              eq_refl eq_refl)
    as (self' & task' & Hstart & Hget & Heq & _); [reflexivity|].
  exists self', task'. split; [exact Hstart|]. split; [exact Hget|].
  rewrite Heq. reflexivity.
Defined.

(** ** More on [speed] and [time_remaining] *)

Lemma speed_never_raises (self : Task.t) :
  exists v : option Q, Task.speed self = Ok v.
Proof.
  unfold Task.speed.
  destruct (Task.start_time self); [|eauto].
  destruct (Task._progress self) as [|first rest]; [eauto|].
  cbv zeta. unfold py_truediv.
  destruct (Qeq_bool _ 0) eqn:E; [eauto|]. simpl. eauto.
Qed.









(** ** More on the sample window *)

Lemma filter_all_since (old : Q) (samples : list ProgressSample.t) :
  all_since old samples ->
  List.filter (fun s => negb (Qlt_bool (ProgressSample.timestamp s) old))
              samples
  = samples.
Proof.
  induction samples as [|s samples IH]; intros H; simpl; [reflexivity|].
  assert (Hs : Qlt_bool (ProgressSample.timestamp s) old = false).
  { apply Qlt_bool_false. apply H. left. reflexivity. }
  rewrite Hs. simpl. rewrite IH; [reflexivity|].
  intros x Hx. apply H. right. exact Hx.
Qed.

(** X7. On a sample sequence whose timestamps never decrease, the eviction
    loop, which only looks at the front, keeps exactly the samples that are
    not older than the bound, in their order. *)
Theorem popleft_old_is_filter (old : Q) (samples : list ProgressSample.t) :
  timestamps_sorted samples = true ->
  Progress.popleft_old old samples
  = List.filter (fun s => negb (Qlt_bool (ProgressSample.timestamp s) old))
                samples.
Proof.
  induction samples as [|s samples IH]; intros Hs; [reflexivity|].
  simpl. destruct (Qlt_bool (ProgressSample.timestamp s) old) eqn:E; simpl.
  - apply IH. exact (timestamps_sorted_tail _ _ Hs).
  - apply Qlt_bool_false in E.
    assert (Hall : all_since old samples).
    { intros x Hx.
      pose proof (timestamps_sorted_front s samples Hs x (or_intror Hx)). lra. }
    rewrite (filter_all_since _ _ Hall). reflexivity.
Qed.

Lemma popleft_old_is_filter_witness :
  Progress.popleft_old 15 [sample 2 3; sample 12 4; sample 30 5]
  = [sample 30 5].
Proof.
  rewrite (popleft_old_is_filter 15 [sample 2 3; sample 12 4; sample 30 5]
             eq_refl).
  reflexivity.
Defined.





(** ** Handles *)

Lemma increasing_tail (h : TaskID) (l : list TaskID) :
  increasing (h :: l) -> increasing l.
Proof. simpl. tauto. Qed.

Lemma increasing_head_lt (h : TaskID) (l : list TaskID) :
  increasing (h :: l) -> Forall (Z.lt h) l.
Proof.
  revert h. induction l as [|k l IH]; intros h H; [constructor|].
  destruct H as [Hlt H]. constructor; [exact Hlt|].
  eapply Forall_impl; [exact (IH k H)|]. simpl. intros x Hx. lia.
Qed.

Lemma increasing_cons (h : TaskID) (l : list TaskID) :
  Forall (Z.lt h) l -> increasing l -> increasing (h :: l).
Proof.
  intros Hall Hl. destruct l as [|k l]; [simpl; tauto|].
  apply Forall_cons in Hall. destruct Hall as [Hlt _].
  split; [exact Hlt|exact Hl].
Qed.

Lemma increasing_snoc (l : list TaskID) (x : TaskID) :
  increasing l -> Forall (fun k => k < x) l -> increasing (l ++ [x]).
Proof.
  induction l as [|h l IH]; intros Hl Hall; [simpl; tauto|].
  apply Forall_cons in Hall. destruct Hall as [Hh Hall].
  change ((h :: l) ++ [x]) with (h :: (l ++ [x])).
  apply increasing_cons.
  - apply Forall_app. split; [exact (increasing_head_lt _ _ Hl)|].
    constructor; [exact Hh|constructor].
  - apply IH; [exact (increasing_tail _ _ Hl)|exact Hall].
Qed.

Lemma increasing_remove (before after : list TaskID) (k : TaskID) :
  increasing (before ++ k :: after) -> increasing (before ++ after).
Proof.
  induction before as [|h before IH]; intros H.
  - exact (increasing_tail _ _ H).
  - change ((h :: before) ++ after) with (h :: (before ++ after)).
    change ((h :: before) ++ k :: after)
      with (h :: (before ++ k :: after)) in H.
    apply increasing_cons.
    + pose proof (increasing_head_lt _ _ H) as Hall.
      apply Forall_app in Hall. destruct Hall as [Hb Ha].
      apply Forall_cons in Ha. destruct Ha as [_ Ha].
      apply Forall_app. split; assumption.
    + apply IH. exact (increasing_tail _ _ H).
Qed.

(** What one call does to the handle counter, whatever its outcome: the
    counter never goes down, and it goes up, by one, exactly when [add_task]
    returns, the handle being the old value of the counter. *)
Lemma exec_call_counter (now : Q) (c : call) (self : Progress.t) :
  Progress._task_index self <= Progress._task_index (snd (exec_call now c self))
  /\ forall h : TaskID,
       fst (exec_call now c self) = Ok (Some h) ->
       h = Progress._task_index self
       /\ Progress._task_index (snd (exec_call now c self)) = h + 1.
Proof.
  destruct c as [task_id|task_id|task_id total completed advance visible fields
                |render|render name start_ total completed visible fields
                |task_id]; unfold exec_call, run_call.
  - destruct (dict_get task_id (Progress._tasks self)) as [task|] eqn:Hget.
    + rewrite (start_known _ _ _ _ Hget). simpl. split; [lia|discriminate].
    + unfold_progress. rewrite Hget. simpl. split; [lia|discriminate].
  - destruct (dict_get task_id (Progress._tasks self)) as [task|] eqn:Hget.
    + rewrite (stop_known _ _ _ _ Hget). simpl. split; [lia|discriminate].
    + unfold_progress. rewrite Hget. simpl. split; [lia|discriminate].
  - destruct (dict_get task_id (Progress._tasks self)) as [task|] eqn:Hget.
    + rewrite (update_known _ _ _ _ _ _ _ _ _ Hget). simpl.
      split; [lia|discriminate].
    + unfold_progress. rewrite Hget. simpl. split; [lia|discriminate].
  - destruct render; unfold_progress; simpl; split; try lia; discriminate.
  - destruct render as [e|].
    + rewrite add_task_render_raises. simpl. split; [lia|discriminate].
    + rewrite add_task_returns. simpl. split; [lia|].
      intros h [= <-]. split; reflexivity.
  - unfold_progress.
    destruct (dict_del task_id (Progress._tasks self)); simpl;
      split; try lia; discriminate.
Qed.

(** X9. Whatever calls are made on a registry, in whatever order and with
    whatever outcomes (calls that raise included), the handles that
    [add_task] returns are strictly increasing and none is below the value
    the handle counter had at the start: no handle is handed out twice. *)
Theorem add_task_handles_increasing (calls : list (Q * call))
    (self : Progress.t) :
  increasing (fst (exec_calls calls self))
  /\ Forall (fun h => Progress._task_index self <= h)
            (fst (exec_calls calls self)).
Proof.
  revert self. induction calls as [|[now c] calls IH]; intros self.
  - simpl. split; [tauto|constructor].
  - simpl.
    pose proof (exec_call_counter now c self) as [Hle Hret].
    destruct (exec_call now c self) as [outcome self'] eqn:Hcall.
    simpl in Hle, Hret.
    specialize (IH self'). destruct (exec_calls calls self') as [handles self''].
    simpl in IH. destruct IH as [Hinc Hall].
    assert (Hall' : Forall (fun h => Progress._task_index self <= h) handles).
    { eapply Forall_impl; [exact Hall|]. simpl. intros h Hh. lia. }
    destruct outcome as [[h|]|e]; simpl; try (split; assumption).
    destruct (Hret h eq_refl) as [-> Hnext]. split.
    + apply increasing_cons; [|exact Hinc].
      eapply Forall_impl; [exact Hall|]. simpl. intros h Hh. lia.
    + constructor; [lia|exact Hall'].
Qed.

(** Four calls on a fresh registry, the first [add_task] failing in its
    rendering pass: the handles returned are 0 and 1. *)
Lemma add_task_handles_increasing_witness :
  fst (exec_calls
         [(0%Q, CallAddTask (Some ZeroDivisionError) "a" false 100 0 true ∅);
          (1%Q, CallAddTask None "b" true 100 0 true ∅);
          (2%Q, CallRemoveTask 0);
          (3%Q, CallAddTask None "c" true 100 0 true ∅)]
         (Progress.init 30))
  = [0; 1]
  /\ increasing [0; 1].
Proof.
  split; [reflexivity|].
  exact (proj1 (add_task_handles_increasing
                  [(0%Q, CallAddTask (Some ZeroDivisionError) "a" false 100 0
                                     true ∅);
                   (1%Q, CallAddTask None "b" true 100 0 true ∅);
                   (2%Q, CallRemoveTask 0);
                   (3%Q, CallAddTask None "c" true 100 0 true ∅)]
                  (Progress.init 30))).
Defined.

(** The [id] field of a stored task is the handle it is stored under. *)
Lemma run_call_ids (clock now : Q) (c : call) (self self' : Progress.t) :
  registry_inv clock self ->
  increasing (Progress.tasks_ids self) ->
  Forall (fun entry => Task.id (snd entry) = fst entry) (Progress._tasks self) ->
  run_call now c self = (Ok tt, self') ->
  increasing (Progress.tasks_ids self')
  /\ Forall (fun entry => Task.id (snd entry) = fst entry)
            (Progress._tasks self').
Proof.
  intros Hinv Hinc Hids Hrun.
  assert (Hid : forall task_id task,
            dict_get task_id (Progress._tasks self) = Some task ->
            Task.id task = task_id).
  { intros task_id task Hget. rewrite List.Forall_forall in Hids.
    exact (Hids _ (dict_get_some_in _ _ _ Hget)). }
  unfold Progress.tasks_ids in *.
  destruct c as [task_id|task_id|task_id total completed advance visible fields
                |render|render name start_ total completed visible fields
                |task_id]; simpl in Hrun.
  - destruct (dict_get task_id (Progress._tasks self)) as [task|] eqn:Hget.
    2:{ revert Hrun. unfold_progress. rewrite Hget. discriminate. }
    rewrite (start_known _ _ _ _ Hget) in Hrun. injection Hrun as <-. simpl.
    rewrite (dict_keys_set_present _ _ _ _ Hget). split; [exact Hinc|].
    apply dict_set_Forall; [|exact Hids]. simpl. exact (Hid _ _ Hget).
  - destruct (dict_get task_id (Progress._tasks self)) as [task|] eqn:Hget.
    2:{ revert Hrun. unfold_progress. rewrite Hget. discriminate. }
    rewrite (stop_known _ _ _ _ Hget) in Hrun. injection Hrun as <-. simpl.
    rewrite (dict_keys_set_present _ _ _ _ Hget). split; [exact Hinc|].
    apply dict_set_Forall; [|exact Hids]. simpl.
    destruct (Task.start_time task); exact (Hid _ _ Hget).
  - destruct (dict_get task_id (Progress._tasks self)) as [task|] eqn:Hget.
    2:{ revert Hrun. unfold_progress. rewrite Hget. discriminate. }
    rewrite (update_known _ _ _ _ _ _ _ _ _ Hget) in Hrun.
    injection Hrun as <-. simpl.
    rewrite (dict_keys_set_present _ _ _ _ Hget). split; [exact Hinc|].
    apply dict_set_Forall; [|exact Hids]. simpl. exact (Hid _ _ Hget).
  - destruct render as [e|]; revert Hrun; unfold_progress; [discriminate|].
    intros [= <-]. simpl. split; assumption.
  - destruct render as [e|]; unfold Progress.bind in Hrun.
    { rewrite add_task_render_raises in Hrun. discriminate. }
    rewrite add_task_returns in Hrun. injection Hrun as <-. simpl.
    destruct Hinv as [Hall _].
    assert (Hlt : Forall (fun k => k < Progress._task_index self)
                         (dict_keys (Progress._tasks self))).
    { unfold dict_keys. apply Forall_fmap.
      eapply Forall_impl; [exact Hall|]. intros entry (Hk & _). exact Hk. }
    assert (Hfresh : dict_get (Progress._task_index self) (Progress._tasks self)
                     = None).
    { apply dict_get_none_keys. intros Hin.
      rewrite Forall_forall in Hlt. specialize (Hlt _ Hin). lia. }
    split.
    + rewrite (dict_set_fresh _ _ _ Hfresh). unfold dict_keys in *.
      rewrite map_app. simpl. apply increasing_snoc; assumption.
    + apply dict_set_Forall; [reflexivity|exact Hids].
  - revert Hrun. unfold_progress.
    destruct (dict_del task_id (Progress._tasks self)) as [tasks|] eqn:Hdel;
      [|discriminate].
    intros [= <-]. simpl. split.
    + destruct (dict_del_keys _ _ _ Hdel) as (before & after & H1 & H2).
      rewrite H2. rewrite H1 in Hinc. exact (increasing_remove _ _ _ Hinc).
    + exact (dict_del_Forall _ _ _ _ Hdel Hids).
Qed.

(** X10. In every registry reached from a fresh one through calls that
    returned, [tasks_ids] lists the handles in strictly increasing order
    (insertion order is allocation order), and the task stored under a
    handle carries that handle in its [id] field. *)
Theorem reachable_ids_increasing (clock : Q) (self : Progress.t) :
  reachable clock self ->
  increasing (Progress.tasks_ids self)
  /\ forall (task_id : TaskID) (task : Task.t),
       dict_get task_id (Progress._tasks self) = Some task ->
       Task.id task = task_id.
Proof.
  intros Hr.
  assert (H : increasing (Progress.tasks_ids self)
              /\ Forall (fun entry => Task.id (snd entry) = fst entry)
                        (Progress._tasks self)).
  { induction Hr as [clock period|clock now c self self' Hr IH Hle Hrun].
    - split; [exact I|constructor].
    - destruct IH as [Hinc Hids].
      exact (run_call_ids clock now c self self' (reachable_inv _ _ Hr)
               Hinc Hids Hrun). }
  destruct H as [Hinc Hids]. split; [exact Hinc|].
  intros task_id task Hget. rewrite List.Forall_forall in Hids.
  exact (Hids _ (dict_get_some_in _ _ _ Hget)).
Qed.

Lemma reachable_ids_increasing_witness :
  Progress.tasks_ids progress_two_tasks = [0; 1]
  /\ increasing (Progress.tasks_ids progress_two_tasks).
Proof.
  split; [reflexivity|].
  exact (proj1 (reachable_ids_increasing 1 progress_two_tasks
                  progress_two_tasks_reachable)).
Defined.

Lemma dict_del_get_none {V : Type} (d d' : dict V) (k j : TaskID) :
  dict_del k d = Some d' -> dict_get j d = None -> dict_get j d' = None.
Proof.
  revert d'. induction d as [|[k0 v0] d IH]; simpl; intros d' Hdel Hget;
    [discriminate|].
  destruct (Z.eqb j k0) eqn:Ej; [discriminate|].
  destruct (Z.eqb k k0).
  - injection Hdel as <-. exact Hget.
  - destruct (dict_del k d) as [d''|]; [|discriminate].
    injection Hdel as <-. simpl. rewrite Ej. exact (IH _ eq_refl Hget).
Qed.

(** A handle below the counter that is not in the task table stays so
    through any call, whatever its outcome, and is never returned. *)
Lemma exec_call_keeps_unknown (now : Q) (c : call) (self : Progress.t)
    (task_id : TaskID) :
  task_id < Progress._task_index self ->
  dict_get task_id (Progress._tasks self) = None ->
  task_id < Progress._task_index (snd (exec_call now c self))
  /\ dict_get task_id (Progress._tasks (snd (exec_call now c self))) = None
  /\ fst (exec_call now c self) <> Ok (Some task_id).
Proof.
  intros Hlt Hnone.
  pose proof (exec_call_counter now c self) as [Hle Hret].
  split; [lia|]. split.
  2:{ intros Hout. destruct (Hret _ Hout) as [-> _]. lia. }
  clear Hle Hret.
  destruct c as [j|j|j total completed advance visible fields
                |render|render name start_ total completed visible fields
                |j]; unfold exec_call, run_call.
  - destruct (dict_get j (Progress._tasks self)) as [task|] eqn:Hget.
    + rewrite (start_known _ _ _ _ Hget). simpl.
      rewrite dict_get_set_ne; [exact Hnone|congruence].
    + unfold_progress. rewrite Hget. exact Hnone.
  - destruct (dict_get j (Progress._tasks self)) as [task|] eqn:Hget.
    + rewrite (stop_known _ _ _ _ Hget). simpl.
      rewrite dict_get_set_ne; [exact Hnone|congruence].
    + unfold_progress. rewrite Hget. exact Hnone.
  - destruct (dict_get j (Progress._tasks self)) as [task|] eqn:Hget.
    + rewrite (update_known _ _ _ _ _ _ _ _ _ Hget). simpl.
      rewrite dict_get_set_ne; [exact Hnone|congruence].
    + unfold_progress. rewrite Hget. exact Hnone.
  - destruct render; unfold_progress; exact Hnone.
  - destruct render as [e|].
    + rewrite add_task_render_raises. simpl.
      rewrite dict_get_set_ne; [exact Hnone|lia].
    + rewrite add_task_returns. simpl.
      rewrite dict_get_set_ne; [exact Hnone|lia].
  - unfold_progress.
    destruct (dict_del j (Progress._tasks self)) as [tasks|] eqn:Hdel; simpl.
    + exact (dict_del_get_none _ _ _ _ Hdel Hnone).
    + exact Hnone.
Qed.

Lemma exec_calls_keep_unknown (calls : list (Q * call)) (self : Progress.t)
    (task_id : TaskID) :
  task_id < Progress._task_index self ->
  dict_get task_id (Progress._tasks self) = None ->
  dict_get task_id (Progress._tasks (snd (exec_calls calls self))) = None
  /\ ~ In task_id (fst (exec_calls calls self)).
Proof.
  revert self. induction calls as [|[now c] calls IH]; intros self Hlt Hnone.
  - simpl. tauto.
  - simpl.
    pose proof (exec_call_keeps_unknown now c self task_id Hlt Hnone)
      as (Hlt' & Hnone' & Hout).
    destruct (exec_call now c self) as [outcome self'].
    simpl in Hlt', Hnone', Hout.
    specialize (IH self' Hlt' Hnone').
    destruct (exec_calls calls self') as [handles self'']. simpl in IH.
    destruct IH as [Hfinal Hnotin]. simpl. split; [exact Hfinal|].
    destruct outcome as [[h|]|e]; try exact Hnotin.
    intros [->|Hin]; [|exact (Hnotin Hin)]. apply Hout. reflexivity.
Qed.

(** X11. Once [remove_task] has returned for a handle of a reachable
    registry, that handle is gone for good: whatever calls follow, with
    whatever outcomes, [add_task] never returns it again and the task table
    never holds it, so [start], [stop], [update] and [remove_task] on it
    raise [KeyError] and change nothing. *)
Theorem removed_handle_never_reused (clock : Q) (self self1 : Progress.t)
    (task_id : TaskID) (calls : list (Q * call)) :
  reachable clock self ->
  Progress.remove_task task_id self = (Ok tt, self1) ->
  let self2 := snd (exec_calls calls self1) in
  ~ In task_id (fst (exec_calls calls self1))
  /\ (task_id ∉ Progress.tasks_ids self2)
  /\ (forall now : Q,
        Progress.start now task_id self2 = (Err (KeyError task_id), self2)
        /\ Progress.stop now task_id self2 = (Err (KeyError task_id), self2)
        /\ (forall total completed advance visible fields,
              Progress.update now task_id total completed advance visible
                              fields self2
              = (Err (KeyError task_id), self2)))
  /\ Progress.remove_task task_id self2 = (Err (KeyError task_id), self2).
Proof.
  intros Hr Hrem self2.
  assert (Hlt : task_id < Progress._task_index self1).
  { revert Hrem. unfold_progress.
    destruct (dict_del task_id (Progress._tasks self)) as [tasks|] eqn:Hdel;
      [|discriminate].
    intros [= <-]. simpl.
    destruct (dict_get task_id (Progress._tasks self)) as [task|] eqn:Hget.
    - exact (proj1 (registry_inv_lookup _ _ _ _ (reachable_inv _ _ Hr) Hget)).
    - rewrite (dict_del_none _ _ Hget) in Hdel. discriminate. }
  pose proof (reachable_removed_unknown _ _ _ _ Hr Hrem) as Hnone.
  destruct (exec_calls_keep_unknown calls self1 task_id Hlt Hnone)
    as [Hfinal Hnotin].
  fold self2 in Hfinal.
  split; [exact Hnotin|]. split; [apply dict_get_none_keys; exact Hfinal|].
  split.
  - intros now. unfold_progress. rewrite Hfinal. repeat split.
  - unfold_progress. rewrite (dict_del_none _ _ Hfinal). reflexivity.
Qed.

(** Task 0 of the registry of two tasks is removed; a later [add_task]
    returns 2, and [update(0, ...)] raises. *)
Lemma removed_handle_never_reused_witness :
  let self1 := snd (Progress.remove_task 0 progress_two_tasks) in
  let calls := [(5%Q, CallAddTask None "c" true 100 0 true ∅)] in
  fst (exec_calls calls self1) = [2]
  /\ Progress.update 6 0 None None (Some 1%Q) None ∅
       (snd (exec_calls calls self1))
     = (Err (KeyError 0), snd (exec_calls calls self1)).
Proof.
  intros self1 calls. split; [reflexivity|].
  destruct (removed_handle_never_reused 1 progress_two_tasks self1 0 calls
              progress_two_tasks_reachable eq_refl)
    as (_ & _ & Hops & _).
  destruct (Hops 6%Q) as (_ & _ & Hupd). apply Hupd.
Defined.

(** X12. In a registry whose handles are all below the counter, an
    [add_task] whose rendering pass returns puts its handle at the end of
    [tasks_ids], leaves every other task as it was, and stores a task with
    the arguments given, no sample, no stop time, and a start time exactly
    when [start] is true. *)
Theorem add_task_appends (self : Progress.t) (now : Q) (name : string)
    (start_ : bool) (total completed : Q) (visible : bool)
    (fields : gmap string Value) :
  handles_fresh self = true ->
  exists (task_id : TaskID) (self' : Progress.t),
    Progress.add_task now None name start_ total completed visible fields self
    = (Ok task_id, self')
    /\ Progress.tasks_ids self' = Progress.tasks_ids self ++ [task_id]
    /\ dict_get task_id (Progress._tasks self')
       = Some (Task.mk task_id name total completed visible fields
                       (if start_ then Some now else None) None [])
    /\ (forall other : TaskID,
          other <> task_id ->
          dict_get other (Progress._tasks self')
          = dict_get other (Progress._tasks self)).
Proof.
  intros Hfresh. apply handles_fresh_unknown in Hfresh.
  rewrite add_task_returns. eexists. eexists. split; [reflexivity|].
  simpl. split.
  { unfold Progress.tasks_ids. simpl. rewrite (dict_set_fresh _ _ _ Hfresh).
    unfold dict_keys. rewrite map_app. reflexivity. }
  split; [apply dict_get_set_eq|].
  intros other Hne. apply dict_get_set_ne. congruence.
Qed.

Lemma add_task_appends_witness :
  exists (task_id : TaskID) (self' : Progress.t),
    Progress.add_task 5 None "c" false 10 0 true ∅ progress_two_tasks
    = (Ok task_id, self')
    /\ Progress.tasks_ids self' = [0; 1; 2].
Proof.
  destruct (add_task_appends progress_two_tasks 5 "c" false 10 0 true ∅
              eq_refl)
    as (task_id & self' & Hadd & Hids & _).
  exists task_id, self'. split; [exact Hadd|].
  rewrite Hids. vm_compute in Hadd. injection Hadd as <- _. reflexivity.
Defined.

(** X13. [add_task] is not exception safe.  When its rendering pass raises,
    the exception goes to the caller with the new task already in the table
    and the handle counter not advanced; the next [add_task] that returns
    then hands out that same handle and replaces the task stored under it,
    so the first task is lost and [tasks_ids] has one new entry, not two. *)
Theorem add_task_after_aborted_add_task (self : Progress.t) (now now' : Q)
    (e : exn) (name name' : string) (start_ start_' : bool)
    (total completed total' completed' : Q) (visible visible' : bool)
    (fields fields' : gmap string Value) :
  handles_fresh self = true ->
  exists self1 self2 : Progress.t,
    Progress.add_task now (Some e) name start_ total completed visible fields
                      self
    = (Err e, self1)
    /\ Progress.tasks_ids self1
       = Progress.tasks_ids self ++ [Progress._task_index self]
    /\ Progress._task_index self1 = Progress._task_index self
    /\ Progress.add_task now' None name' start_' total' completed' visible'
                         fields' self1
       = (Ok (Progress._task_index self), self2)
    /\ Progress.tasks_ids self2
       = Progress.tasks_ids self ++ [Progress._task_index self]
    /\ dict_get (Progress._task_index self) (Progress._tasks self2)
       = Some (Task.mk (Progress._task_index self) name' total' completed'
                       visible' fields'
                       (if start_' then Some now' else None) None []).
Proof.
  intros Hfresh. apply handles_fresh_unknown in Hfresh.
  rewrite add_task_render_raises. eexists. eexists.
  split; [reflexivity|].
  assert (Hkeys : forall task,
            dict_keys (dict_set (Progress._task_index self) task
                                (Progress._tasks self))
            = dict_keys (Progress._tasks self) ++ [Progress._task_index self]).
  { intros task. rewrite (dict_set_fresh _ _ _ Hfresh).
    unfold dict_keys. rewrite map_app. reflexivity. }
  split; [apply Hkeys|]. split; [reflexivity|].
  rewrite add_task_returns. simpl. rewrite dict_set_set.
  split; [reflexivity|]. simpl.
  split; [unfold Progress.tasks_ids; simpl; apply Hkeys|].
  apply dict_get_set_eq.
Qed.

Lemma add_task_after_aborted_add_task_witness :
  exists self1 self2 : Progress.t,
    Progress.add_task 0 (Some ZeroDivisionError) "a" false 100 0 true ∅
                      (Progress.init 30)
    = (Err ZeroDivisionError, self1)
    /\ Progress.add_task 1 None "b" true 50 0 true ∅ self1 = (Ok 0, self2)
    /\ Progress.tasks_ids self2 = [0]
    /\ option_map Task.name (dict_get 0 (Progress._tasks self2)) = Some "b".
Proof.
  destruct (add_task_after_aborted_add_task (Progress.init 30) 0 1
              ZeroDivisionError "a" "b" false true 100 0 50 0 true true ∅ ∅
              eq_refl)
    as (self1 & self2 & H1 & _ & _ & H2 & Hids & Hget).
  exists self1, self2. split; [exact H1|]. split; [exact H2|].
  split; [exact Hids|]. simpl in Hget. rewrite Hget. reflexivity.
Defined.

(** ** [Progress.finished] *)

Lemma dict_get_in_nodup {V : Type} (d : dict V) (k : TaskID) (v : V) :
  NoDup (dict_keys d) -> In (k, v) d -> dict_get k d = Some v.
Proof.
  unfold dict_keys. induction d as [|[k0 v0] d IH]; simpl; intros Hnd Hin;
    [contradiction|].
  apply NoDup_cons in Hnd. destruct Hnd as [Hk0 Hnd].
  destruct Hin as [[= -> ->]|Hin].
  - rewrite Z.eqb_refl. reflexivity.
  - destruct (Z.eqb_spec k k0) as [->|_]; [|exact (IH Hnd Hin)].
    exfalso. apply Hk0. apply list_elem_of_In.
    apply in_map_iff. exists (k0, v). split; [reflexivity|exact Hin].
Qed.

(** X14. In a reachable registry, [finished] is true exactly when every
    task the table holds has [completed >= total]; with no task at all it is
    true. *)
Theorem progress_finished_iff (clock : Q) (self : Progress.t) :
  reachable clock self ->
  (Progress.finished self = true
   <-> forall (task_id : TaskID) (task : Task.t),
         dict_get task_id (Progress._tasks self) = Some task ->
         (Task.total task <= Task.completed task)%Q)
  /\ (Progress.tasks_ids self = [] -> Progress.finished self = true).
Proof.
  intros Hr. destruct (reachable_inv _ _ Hr) as [_ Hnd].
  rewrite progress_finished_forallb. split.
  - rewrite forallb_forall. unfold dict_values. split.
    + intros H task_id task Hget. apply Qle_bool_iff.
      apply (H task). apply in_map_iff.
      exists (task_id, task). split; [reflexivity|].
      exact (dict_get_some_in _ _ _ Hget).
    + intros H task Hin. apply in_map_iff in Hin.
      destruct Hin as ([task_id task'] & Heq & Hin). simpl in Heq. subst task'.
      apply Qle_bool_iff. apply (H task_id).
      exact (dict_get_in_nodup _ _ _ Hnd Hin).
  - unfold Progress.tasks_ids, dict_keys.
    destruct (Progress._tasks self); [reflexivity|discriminate].
Qed.

(** Two unfinished tasks: the registry is not finished, and task 0 is one
    that has [completed < total]. *)
Lemma progress_finished_iff_witness :
  Progress.finished progress_two_tasks = false
  /\ ~ (forall (task_id : TaskID) (task : Task.t),
          dict_get task_id (Progress._tasks progress_two_tasks) = Some task ->
          (Task.total task <= Task.completed task)%Q).
Proof.
  split; [reflexivity|]. intros H.
  apply (proj1 (progress_finished_iff 1 progress_two_tasks
                  progress_two_tasks_reachable)) in H.
  discriminate H.
Defined.

(** ** Progress columns *)

(** A cache entry that is still fresh is served as it is. *)
Lemma call_fresh_entry (render : Task.t -> result Renderable) (now : Q)
    (task : Task.t) (self : ProgressColumn.t) (period timestamp : Q)
    (renderable : Renderable) :
  ProgressColumn.max_refresh self = Some period ->
  ProgressColumn._renderable_cache self !! Task.id task
  = Some (timestamp, renderable) ->
  (now < timestamp + period)%Q ->
  ProgressColumn.call render now task self = (Ok renderable, self).
Proof.
  intros Hm Hc Hlt. unfold ProgressColumn.call. rewrite Hm, Hc.
  apply Qlt_bool_true in Hlt. rewrite Hlt. reflexivity.
Qed.

(** Without a fresh entry the column renders, and stores what it rendered
    unless the rendering raised. *)
Lemma call_no_fresh_entry (render : Task.t -> result Renderable) (now : Q)
    (task : Task.t) (self : ProgressColumn.t) :
  (forall period timestamp renderable,
     ProgressColumn.max_refresh self = Some period ->
     ProgressColumn._renderable_cache self !! Task.id task
     = Some (timestamp, renderable) ->
     (timestamp + period <= now)%Q) ->
  ProgressColumn.call render now task self
  = match render task with
    | Ok renderable =>
        (Ok renderable,
         ProgressColumn.mk (ProgressColumn.max_refresh self)
           (<[Task.id task := (now, renderable)]>
              (ProgressColumn._renderable_cache self)))
    | Err e => (Err e, self)
    end.
Proof.
  intros Hstale. unfold ProgressColumn.call.
  destruct (ProgressColumn.max_refresh self) as [period|]; [|reflexivity].
  destruct (ProgressColumn._renderable_cache self !! Task.id task)
    as [[timestamp renderable]|]; [|reflexivity].
  specialize (Hstale period timestamp renderable eq_refl eq_refl).
  apply Qlt_bool_false in Hstale. rewrite Hstale. reflexivity.
Qed.

(** X15. Throttling.  Let a column with refresh period [period] render a
    task at time [t0] because it holds no fresh entry for it, the rendering
    giving [renderable].  Then every call for a task with the same id at a
    time before [t0 + period] returns [renderable] without rendering and
    without touching the column, even if the task has changed; and a call at
    or after [t0 + period] renders the task anew and stamps the entry with
    the time of that call. *)
Theorem call_throttles (render : Task.t -> result Renderable) (t0 period : Q)
    (task : Task.t) (self : ProgressColumn.t) (renderable : Renderable) :
  ProgressColumn.max_refresh self = Some period ->
  (forall timestamp old,
     ProgressColumn._renderable_cache self !! Task.id task
     = Some (timestamp, old) ->
     (timestamp + period <= t0)%Q) ->
  render task = Ok renderable ->
  exists self1 : ProgressColumn.t,
    ProgressColumn.call render t0 task self = (Ok renderable, self1)
    /\ (forall (render' : Task.t -> result Renderable) (task' : Task.t)
               (t : Q),
          Task.id task' = Task.id task ->
          (t < t0 + period)%Q ->
          ProgressColumn.call render' t task' self1 = (Ok renderable, self1))
    /\ (forall (render' : Task.t -> result Renderable) (task' : Task.t)
               (t : Q) (renderable' : Renderable),
          Task.id task' = Task.id task ->
          (t0 + period <= t)%Q ->
          render' task' = Ok renderable' ->
          exists self2 : ProgressColumn.t,
            ProgressColumn.call render' t task' self1 = (Ok renderable', self2)
            /\ ProgressColumn._renderable_cache self2 !! Task.id task
               = Some (t, renderable')).
Proof.
  intros Hm Hstale Hrender.
  rewrite call_no_fresh_entry.
  2:{ intros p ts old Hp Hc. rewrite Hm in Hp. injection Hp as <-.
      exact (Hstale ts old Hc). }
  rewrite Hrender. eexists. split; [reflexivity|]. split.
  - intros render' task' t Hid Hlt.
    apply (call_fresh_entry render' t task' _ period t0 renderable);
      [exact Hm| |exact Hlt].
    simpl. rewrite Hid. apply lookup_insert_eq.
  - intros render' task' t renderable' Hid Hle Hrender'.
    rewrite call_no_fresh_entry.
    2:{ simpl. intros p ts old Hp Hc. rewrite Hm in Hp. injection Hp as <-.
        rewrite Hid, lookup_insert_eq in Hc. injection Hc as <- _.
        exact Hle. }
    rewrite Hrender'. eexists. split; [reflexivity|].
    simpl. rewrite Hid. apply lookup_insert_eq.
Qed.

(** A fresh [TimeRemainingColumn]-like column (period 1/2) asked three
    times for task 0: at 10 it renders, at 10.1 it serves the entry although
    the task differs, at 10.6 it renders again. *)
Lemma call_throttles_witness :
  exists self1 self2 : ProgressColumn.t,
    ProgressColumn.call (BarColumn_render None) 10 task_slow
      (ProgressColumn.init (Some (1 # 2)%Q))
    = (Ok (Bar 100 0 None), self1)
    /\ ProgressColumn.call (BarColumn_render None) (101 # 10) task_fast self1
       = (Ok (Bar 100 0 None), self1)
    /\ ProgressColumn.call (BarColumn_render None) (106 # 10) task_fast self1
       = (Ok (Bar 15 5 None), self2).
Proof.
  destruct (call_throttles (BarColumn_render None) 10 (1 # 2) task_slow
              (ProgressColumn.init (Some (1 # 2)%Q)) (Bar 100 0 None)
              eq_refl)
    as (self1 & Hcall & Hhit & Hmiss).
  { intros timestamp old Hc.
    unfold ProgressColumn.init, ProgressColumn._renderable_cache in Hc.
    rewrite lookup_empty in Hc. discriminate. }
  { reflexivity. }
  destruct (Hmiss (BarColumn_render None) task_fast (106 # 10)%Q
              (Bar 15 5 None) eq_refl)
    as (self2 & Hcall2 & _); [unfold Qle; simpl; lia|reflexivity|].
  exists self1, self2. split; [exact Hcall|]. split; [|exact Hcall2].
  apply Hhit; reflexivity.
Defined.

(** X16. Whatever a call of a column does, it never changes the refresh
    period, never touches the entries of other task ids and never drops an
    entry; and when it raises, the exception is the one [render] raised for
    this task and the column is exactly as before, so nothing of a failed
    rendering is cached. *)
Theorem call_frame (render : Task.t -> result Renderable) (now : Q)
    (task : Task.t) (self : ProgressColumn.t) :
  let outcome := fst (ProgressColumn.call render now task self) in
  let self' := snd (ProgressColumn.call render now task self) in
  ProgressColumn.max_refresh self' = ProgressColumn.max_refresh self
  /\ (forall other : TaskID,
        other <> Task.id task ->
        ProgressColumn._renderable_cache self' !! other
        = ProgressColumn._renderable_cache self !! other)
  /\ (forall key : TaskID,
        is_Some (ProgressColumn._renderable_cache self !! key) ->
        is_Some (ProgressColumn._renderable_cache self' !! key))
  /\ (forall e : exn,
        outcome = Err e -> self' = self /\ render task = Err e).
Proof.
  unfold ProgressColumn.call.
  destruct (match ProgressColumn.max_refresh self with
            | Some _ => _
            | None => None
            end) as [cached|].
  { simpl. repeat split; try tauto; discriminate. }
  destruct (render task) as [renderable|e]; simpl.
  - split; [reflexivity|]. split.
    { intros other Hne. apply lookup_insert_ne. congruence. }
    split; [|discriminate].
    intros key Hsome.
    destruct (decide (key = Task.id task)) as [->|Hne].
    + rewrite lookup_insert_eq. eauto.
    + rewrite lookup_insert_ne by congruence. exact Hsome.
  - repeat split; try tauto. all: intros e' [= <-]; reflexivity.
Qed.



Lemma append_not_question_mark (s : string) : (s ++ "/s")%string <> "?".
Proof.
  destruct s as [|c s]; [discriminate|].
  simpl. intros [= _ H]. destruct s; discriminate.
Qed.

(** X18. [TransferSpeedColumn.render] shows the placeholder ["?"] exactly
    when the task has no speed estimate. *)
Theorem transfer_speed_column_placeholder
    (filesize_decimal : Z -> result string) (task : Task.t) :
  TransferSpeedColumn_render filesize_decimal task
  = Ok (Text "?" "progress.data.speed")
  <-> Task.speed task = Ok None.
Proof.
  unfold TransferSpeedColumn_render.
  destruct (speed_never_raises task) as [[speed|] ->]; simpl.
  - destruct (filesize_decimal (py_int speed)) as [data_speed|e0]; simpl.
    + split; [|discriminate].
      intros [= H]. exfalso. exact (append_not_question_mark _ H).
    + split; discriminate.
  - tauto.
Qed.

Lemma transfer_speed_column_placeholder_witness :
  TransferSpeedColumn_render (fun _ => Ok "1 byte") task_one_sample
  = Ok (Text "?" "progress.data.speed").
Proof.
  apply (proj2 (transfer_speed_column_placeholder (fun _ => Ok "1 byte")
                  task_one_sample)).
  reflexivity.
Defined.

(** ** Registry invariants and removal *)

(** X19. Every registry reached from a fresh one through calls that
    returned, at clock readings that never decrease, keeps these
    invariants: no handle is listed twice; every listed handle is at least 0
    and below the handle counter; and the samples of every task are in
    timestamp order, none of them newer than the latest clock reading. *)
Theorem reachable_registry_invariant (clock : Q) (self : Progress.t) :
  reachable clock self ->
  NoDup (Progress.tasks_ids self)
  /\ (forall task_id : TaskID,
        task_id ∈ Progress.tasks_ids self ->
        0 <= task_id < Progress._task_index self)
  /\ (forall (task_id : TaskID) (task : Task.t),
        dict_get task_id (Progress._tasks self) = Some task ->
        timestamps_sorted (Task._progress task) = true
        /\ forall s, In s (Task._progress task) ->
                     (ProgressSample.timestamp s <= clock)%Q).
Proof.
  intros Hr. pose proof (reachable_inv _ _ Hr) as Hinv.
  split; [exact (proj2 Hinv)|]. split.
  - assert (Hnonneg : Forall (fun k => 0 <= k) (Progress.tasks_ids self)
                      /\ 0 <= Progress._task_index self).
    { clear Hinv.
      induction Hr as [clock period|clock now c self self' Hr IH Hle Hrun].
      - split; [constructor|simpl; lia].
      - destruct IH as [Hall H0].
        assert (Hcase :
                  (Progress.tasks_ids self' = Progress.tasks_ids self
                   /\ Progress._task_index self' = Progress._task_index self)
                  \/ (Progress.tasks_ids self'
                      = Progress.tasks_ids self ++ [Progress._task_index self]
                      /\ Progress._task_index self'
                         = Progress._task_index self + 1)
                  \/ (exists before after k,
                        Progress.tasks_ids self = before ++ k :: after
                        /\ Progress.tasks_ids self' = before ++ after
                        /\ Progress._task_index self'
                           = Progress._task_index self)).
        { pose proof (reachable_handles_fresh _ _ Hr) as Hfresh.
          apply handles_fresh_unknown in Hfresh.
          unfold Progress.tasks_ids.
          destruct c as [j|j|j total completed advance visible fields
                        |render|render name start_ total completed visible
                                fields
                        |j]; simpl in Hrun.
          - destruct (dict_get j (Progress._tasks self)) as [task|] eqn:Hget.
            2:{ revert Hrun. unfold_progress. rewrite Hget. discriminate. }
            rewrite (start_known _ _ _ _ Hget) in Hrun.
            injection Hrun as <-. left. simpl.
            rewrite (dict_keys_set_present _ _ _ _ Hget). tauto.
          - destruct (dict_get j (Progress._tasks self)) as [task|] eqn:Hget.
            2:{ revert Hrun. unfold_progress. rewrite Hget. discriminate. }
            rewrite (stop_known _ _ _ _ Hget) in Hrun.
            injection Hrun as <-. left. simpl.
            rewrite (dict_keys_set_present _ _ _ _ Hget). tauto.
          - destruct (dict_get j (Progress._tasks self)) as [task|] eqn:Hget.
            2:{ revert Hrun. unfold_progress. rewrite Hget. discriminate. }
            rewrite (update_known _ _ _ _ _ _ _ _ _ Hget) in Hrun.
            injection Hrun as <-. left. simpl.
            rewrite (dict_keys_set_present _ _ _ _ Hget). tauto.
          - destruct render as [e|]; revert Hrun; unfold_progress;
              [discriminate|].
            intros [= <-]. left. simpl. tauto.
          - destruct render as [e|]; unfold Progress.bind in Hrun.
            { rewrite add_task_render_raises in Hrun. discriminate. }
            rewrite add_task_returns in Hrun. injection Hrun as <-.
            right. left. simpl. rewrite (dict_set_fresh _ _ _ Hfresh).
            unfold dict_keys. rewrite map_app. tauto.
          - revert Hrun. unfold_progress.
            destruct (dict_del j (Progress._tasks self)) as [tasks|] eqn:Hdel;
              [|discriminate].
            intros [= <-]. right. right. simpl.
            destruct (dict_del_keys _ _ _ Hdel) as (before & after & H1 & H2).
            exists before, after, j. tauto. }
        destruct Hcase as [[-> ->]|[[-> ->]|(before & after & k & H1 & -> & ->)]].
        + split; assumption.
        + split; [|lia]. apply Forall_app. split; [exact Hall|].
          constructor; [exact H0|constructor].
        + split; [|exact H0]. rewrite H1 in Hall.
          apply Forall_app in Hall. destruct Hall as [Hb Ha].
          apply Forall_cons in Ha. destruct Ha as [_ Ha].
          apply Forall_app. split; assumption. }
    intros task_id Hin. split.
    + destruct Hnonneg as [Hall _]. rewrite Forall_forall in Hall.
      exact (Hall _ Hin).
    + pose proof (reachable_handles_fresh _ _ Hr) as Hfresh.
      unfold handles_fresh in Hfresh. rewrite forallb_forall in Hfresh.
      apply list_elem_of_In in Hin. apply Z.ltb_lt. exact (Hfresh _ Hin).
  - intros task_id task Hget.
    destruct (registry_inv_lookup _ _ _ _ Hinv Hget) as (_ & Hs & Hn).
    split; [exact Hs|]. intros s Hin.
    unfold none_after in Hn. rewrite forallb_forall in Hn.
    apply Qle_bool_iff. exact (Hn s Hin).
Qed.

Lemma reachable_registry_invariant_witness :
  NoDup (Progress.tasks_ids progress_two_tasks)
  /\ (forall task_id : TaskID,
        task_id ∈ Progress.tasks_ids progress_two_tasks -> 0 <= task_id < 2).
Proof.
  destruct (reachable_registry_invariant 1 progress_two_tasks
              progress_two_tasks_reachable) as (Hnd & Hrange & _).
  split; [exact Hnd|]. exact Hrange.
Defined.

Lemma dict_del_get_other {V : Type} (d d' : dict V) (k j : TaskID) :
  dict_del k d = Some d' -> j <> k -> dict_get j d' = dict_get j d.
Proof.
  intros Hdel Hne. revert d' Hdel.
  induction d as [|[k0 v0] d IH]; simpl; intros d' Hdel; [discriminate|].
  destruct (Z.eqb_spec k k0) as [->|Hk].
  - injection Hdel as <-.
    destruct (Z.eqb_spec j k0); [contradiction|reflexivity].
  - destruct (dict_del k d) as [d''|]; [|discriminate].
    injection Hdel as <-. simpl. rewrite (IH _ eq_refl). reflexivity.
Qed.

(** X20. [remove_task] on a handle the table holds returns, takes exactly
    that handle out of [tasks_ids], the others keeping their order, leaves
    every other task as it was and does not touch the handle counter. *)
Theorem remove_task_removes_exactly (self : Progress.t) (task_id : TaskID)
    (task : Task.t) :
  dict_get task_id (Progress._tasks self) = Some task ->
  exists (self' : Progress.t) (before after : list TaskID),
    Progress.remove_task task_id self = (Ok tt, self')
    /\ Progress.tasks_ids self = before ++ task_id :: after
    /\ Progress.tasks_ids self' = before ++ after
    /\ (forall other : TaskID,
          other <> task_id ->
          dict_get other (Progress._tasks self')
          = dict_get other (Progress._tasks self))
    /\ Progress._task_index self' = Progress._task_index self.
Proof.
  intros Hget. destruct (dict_del_some _ _ _ Hget) as [tasks Hdel].
  destruct (dict_del_keys _ _ _ Hdel) as (before & after & H1 & H2).
  unfold_progress. rewrite Hdel. simpl.
  eexists. exists before, after. split; [reflexivity|]. simpl.
  split; [exact H1|]. split; [exact H2|]. split; [|reflexivity].
  intros other Hne. exact (dict_del_get_other _ _ _ _ Hdel Hne).
Qed.

Lemma remove_task_removes_exactly_witness :
  exists self' : Progress.t,
    Progress.remove_task 0 progress_two_tasks = (Ok tt, self')
    /\ Progress.tasks_ids self' = [1].
Proof.
  destruct (remove_task_removes_exactly progress_two_tasks 0
              (Task.mk 0 "a" 100 0 true ∅ (Some 0%Q) None []) eq_refl)
    as (self' & before & after & Hrem & _).
  exists self'. split; [exact Hrem|].
  vm_compute in Hrem. injection Hrem as <-. reflexivity.
Defined.

(** ** [percentage] on Python numbers *)

Lemma compare_finite_antisym (ex ey : Z) (mx my : positive) :
  match Z.compare ey ex with
  | Lt => Lt
  | Gt => Gt
  | Eq => Pos.compare_cont Eq my mx
  end
  = CompOpp match Z.compare ex ey with
            | Lt => Lt
            | Gt => Gt
            | Eq => Pos.compare_cont Eq mx my
            end.
Proof.
  rewrite (Z.compare_antisym ex ey).
  destruct (Z.compare ex ey); simpl; try reflexivity.
  rewrite (Pos.compare_cont_antisym mx my Eq). reflexivity.
Qed.

Lemma SFcompare_antisym (x y : spec_float) (c : comparison) :
  SFcompare x y = Some c -> SFcompare y x = Some (CompOpp c).
Proof.
  destruct x as [sx|sx| |sx mx ex], y as [sy|sy| |sy my ey]; simpl;
    try discriminate; try (destruct sx); try (destruct sy);
    intros [= <-]; try reflexivity; f_equal.
  - rewrite (Z.compare_antisym ex ey).
    destruct (Z.compare ex ey); simpl; try reflexivity.
    rewrite (Pos.compare_cont_antisym mx my Eq). reflexivity.
  - apply compare_finite_antisym.
Qed.

Lemma SFcompare_none_l (x y : spec_float) :
  SFcompare x y = None -> y <> S754_nan -> x = S754_nan.
Proof.
  destruct x as [sx|sx| |sx mx ex], y as [sy|sy| |sy my ey]; simpl;
    try discriminate; try reflexivity; intros _ H; contradiction.
Qed.

Lemma SFcompare_refl (x : spec_float) :
  x <> S754_nan -> SFcompare x x = Some Eq.
Proof.
  destruct x as [sx|sx| |sx mx ex]; simpl; intros H;
    try reflexivity; try contradiction; destruct sx; try reflexivity;
    rewrite Z.compare_refl, Pos.compare_cont_refl; reflexivity.
Qed.

(** The value that [min(100, max(0.0, x))] gives for a double [x]. *)
Lemma py_clamp_double (x : spec_float) :
  let m := if SFltb float_zero x then x else float_zero in
  let r := if SFltb m float_100 then PyFloat m else PyInt 100 in
  in_percent_range r = true
  /\ (x = S754_nan -> r = PyFloat float_zero)
  /\ (x <> S754_nan ->
      equals_double r (Spec.clamp x float_zero float_100) = true).
Proof.
  cbv zeta. unfold Spec.clamp, SFltb.
  destruct (SFcompare float_zero x) as [[| |]|] eqn:C0.
  - (* x is a zero *)
    assert (Hx : exists s, x = S754_zero s).
    { destruct x as [s|s| |s m e]; simpl in C0; try discriminate;
        [eauto|destruct s; discriminate|destruct s; discriminate]. }
    destruct Hx as [s ->]. repeat split; discriminate.
  - (* 0 < x *)
    assert (C0' : SFcompare x float_zero = Some Gt)
      by exact (SFcompare_antisym _ _ _ C0).
    rewrite C0'.
    assert (Hnan : x <> S754_nan) by (intros ->; discriminate).
    destruct (SFcompare x float_100) as [[| |]|] eqn:C1.
    + assert (C1' : SFcompare float_100 x = Some Eq)
        by exact (SFcompare_antisym _ _ _ C1).
      rewrite C1'. split; [reflexivity|]. split; [contradiction|].
      intros _. unfold equals_double.
      change (float_of_int 100) with (Ok float_100 : result spec_float).
      unfold SFeqb. rewrite C1'. reflexivity.
    + assert (C1' : SFcompare float_100 x = Some Gt)
        by exact (SFcompare_antisym _ _ _ C1).
      rewrite C1'. split.
      { unfold in_percent_range, SFleb. rewrite C0, C1. reflexivity. }
      split; [contradiction|]. intros _. unfold equals_double, SFeqb.
      rewrite (SFcompare_refl x Hnan). reflexivity.
    + assert (C1' : SFcompare float_100 x = Some Lt)
        by exact (SFcompare_antisym _ _ _ C1).
      rewrite C1'. split; [reflexivity|]. split; [contradiction|].
      intros _. reflexivity.
    + exfalso. apply Hnan. apply (SFcompare_none_l x float_100 C1).
      discriminate.
  - (* x < 0 *)
    assert (C0' : SFcompare x float_zero = Some Lt)
      by exact (SFcompare_antisym _ _ _ C0).
    rewrite C0'. repeat split; try reflexivity; try (intros ->; discriminate).
  - (* x is NaN *)
    assert (Hx : x = S754_nan).
    { destruct x as [s|s| |s m e]; simpl in C0; try discriminate.
      reflexivity. }
    subst x. repeat split; try reflexivity; try (intros H; contradiction).
Qed.

(** *** A nonzero int never converts to a zero double *)

Lemma digits2_pos_size (p : positive) : digits2_pos p = Pos.size p.
Proof. induction p; simpl; congruence. Qed.

Lemma Zdigits2_log2 (m : Z) : 0 < m -> Zdigits2 m = Z.log2 m + 1.
Proof.
  destruct m as [|p|p]; try lia. intros _. simpl.
  rewrite digits2_pos_size. destruct p; simpl; lia.
Qed.

Lemma shr_1_m (mrs : shr_record) :
  0 <= shr_m mrs -> shr_m (shr_1 mrs) = Z.div2 (shr_m mrs).
Proof.
  destruct mrs as [m r s]. simpl. intros H.
  destruct m as [|[p|p|]|p]; try reflexivity; lia.
Qed.

Lemma iter_pos_shr_m (p : positive) (mrs : shr_record) :
  0 <= shr_m mrs ->
  shr_m (SpecFloat.iter_pos shr_1 p mrs) = Z.shiftr (shr_m mrs) (Z.pos p).
Proof.
  revert mrs. induction p as [p IH|p IH|]; intros mrs H; simpl.
  - assert (H1 : 0 <= shr_m (shr_1 mrs)).
    { rewrite shr_1_m by exact H. rewrite Z.div2_spec.
      apply Z.shiftr_nonneg. exact H. }
    assert (H2 : 0 <= shr_m (SpecFloat.iter_pos shr_1 p (shr_1 mrs))).
    { rewrite IH by exact H1. apply Z.shiftr_nonneg. exact H1. }
    rewrite IH by exact H2. rewrite IH by exact H1.
    rewrite shr_1_m by exact H. rewrite Z.div2_spec.
    rewrite !Z.shiftr_shiftr by lia. f_equal. lia.
  - assert (H2 : 0 <= shr_m (SpecFloat.iter_pos shr_1 p mrs)).
    { rewrite IH by exact H. apply Z.shiftr_nonneg. exact H. }
    rewrite IH by exact H2. rewrite IH by exact H.
    rewrite Z.shiftr_shiftr by lia. f_equal. lia.
  - rewrite shr_1_m by exact H. apply Z.div2_spec.
Qed.

(** In the normal range a right shift to the format keeps the mantissa
    positive and the sum of digits and exponent. *)
Lemma shr_fexp_positive (m e : Z) (l : location) :
  0 < m -> -1021 <= Zdigits2 m + e ->
  0 < shr_m (fst (shr_fexp 53 1024 m e l))
  /\ Zdigits2 (shr_m (fst (shr_fexp 53 1024 m e l)))
     + snd (shr_fexp 53 1024 m e l) = Zdigits2 m + e.
Proof.
  intros Hm Hd. unfold shr_fexp, shr.
  assert (Hf : fexp 53 1024 (Zdigits2 m + e) - e = Zdigits2 m - 53).
  { unfold fexp, emin. lia. }
  rewrite Hf.
  assert (Hrec : shr_m (shr_record_of_loc m l) = m).
  { destruct l as [|[| |]]; reflexivity. }
  destruct (Zdigits2 m - 53) as [|p|p] eqn:Hn; simpl; rewrite ?Hrec;
    try (split; [exact Hm|reflexivity]).
  rewrite iter_pos_shr_m by (rewrite Hrec; lia). rewrite Hrec.
  rewrite (Zdigits2_log2 m Hm) in Hn.
  assert (Hpos : 0 < Z.shiftr m (Z.pos p)).
  { assert (H0 : 0 <= Z.shiftr m (Z.pos p)) by (apply Z.shiftr_nonneg; lia).
    assert (H1 : Z.shiftr m (Z.pos p) <> 0).
    { intros H. apply Z.shiftr_eq_0_iff in H. lia. }
    lia. }
  split; [exact Hpos|].
  rewrite (Zdigits2_log2 _ Hpos), (Zdigits2_log2 m Hm).
  rewrite Z.log2_shiftr by exact Hm. lia.
Qed.

Lemma Zdigits2_le (a b : Z) : 0 < a -> a <= b -> Zdigits2 a <= Zdigits2 b.
Proof.
  intros Ha Hab. rewrite !Zdigits2_log2 by lia.
  pose proof (Z.log2_le_mono a b Hab). lia.
Qed.

Lemma round_nearest_even_ge (m : Z) (l : location) :
  m <= round_nearest_even m l <= m + 1.
Proof.
  destruct l as [|[| |]]; simpl; try lia. destruct (Z.even m); lia.
Qed.

Lemma binary_round_aux_not_zero (s : bool) (m e : Z) (l : location) :
  0 < m -> -1021 <= Zdigits2 m + e ->
  forall s', binary_round_aux 53 1024 s m e l <> S754_zero s'.
Proof.
  intros Hm Hd s'. unfold binary_round_aux.
  pose proof (shr_fexp_positive m e l Hm Hd) as [H1 H2].
  destruct (shr_fexp 53 1024 m e l) as [mrs1 e1]. simpl in H1, H2.
  pose proof (round_nearest_even_ge (shr_m mrs1) (loc_of_shr_record mrs1))
    as Hr.
  set (m2 := round_nearest_even (shr_m mrs1) (loc_of_shr_record mrs1)) in *.
  assert (Hm2 : 0 < m2) by lia.
  assert (Hd2 : -1021 <= Zdigits2 m2 + e1).
  { pose proof (Zdigits2_le (shr_m mrs1) m2 H1 (proj1 Hr)). lia. }
  pose proof (shr_fexp_positive m2 e1 loc_Exact Hm2 Hd2) as [H3 _].
  destruct (shr_fexp 53 1024 m2 e1 loc_Exact) as [mrs2 e2]. simpl in H3.
  destruct (shr_m mrs2) as [|q|q]; try lia.
  destruct (e2 <=? 1024 - 53); discriminate.
Qed.

Lemma binary_normalize_not_zero (z : Z) :
  z <> 0 -> forall s', binary_normalize 53 1024 z 0 false <> S754_zero s'.
Proof.
  intros Hz s'.
  assert (H : forall sx m, binary_round 53 1024 sx m 0 <> S754_zero s').
  { intros sx m. unfold binary_round.
    assert (Hd : 1 <= Zdigits2 (Z.pos m)).
    { rewrite Zdigits2_log2 by lia.
      pose proof (Z.log2_nonneg (Z.pos m)). lia. }
    change (Z.pos (digits2_pos m)) with (Zdigits2 (Z.pos m)).
    unfold shl_align.
    destruct (fexp 53 1024 (Zdigits2 (Z.pos m) + 0) - 0) as [|k|k] eqn:Hk;
      apply binary_round_aux_not_zero; try lia.
    assert (1 <= Zdigits2 (Z.pos (Pos.iter xO m k))).
    { rewrite Zdigits2_log2 by lia.
      pose proof (Z.log2_nonneg (Z.pos (Pos.iter xO m k))). lia. }
    unfold fexp, emin in *. lia. }
  destruct z as [|m|m]; [contradiction| |]; simpl; apply H.
Qed.

Lemma SFeqb_zero (x : spec_float) :
  SFeqb x float_zero = true -> exists s, x = S754_zero s.
Proof.
  destruct x as [s|s| |s m e]; unfold SFeqb; simpl; try discriminate;
    [eauto|destruct s; discriminate|destruct s; discriminate].
Qed.

Lemma float_of_int_raises (z : Z) (e : exn) :
  float_of_int z = Err e -> e = OverflowError.
Proof.
  unfold float_of_int.
  destruct (binary_normalize dbl_prec dbl_emax z 0 false);
    intros H; try discriminate. injection H as <-. reflexivity.
Qed.

Lemma float_of_int_nonzero (z : Z) (x : spec_float) :
  z <> 0 -> float_of_int z = Ok x -> SFeqb x float_zero = false.
Proof.
  intros Hz. unfold float_of_int.
  pose proof (binary_normalize_not_zero z Hz) as Hnz.
  change (binary_normalize 53 1024 z 0 false)
    with (binary_normalize dbl_prec dbl_emax z 0 false) in Hnz.
  destruct (binary_normalize dbl_prec dbl_emax z 0 false) as [s|s| |s m e];
    intros H; try discriminate; injection H as <-;
    try reflexivity; try (destruct s; reflexivity).
  exfalso. exact (Hnz s eq_refl).
Qed.

(** With a true [total], the division of [percentage] raises nothing but
    [OverflowError], and nothing at all on two floats. *)
Lemma truediv_raises (completed total : number) (e : exn) :
  py_bool total = true ->
  truediv completed total = Err e ->
  e = OverflowError /\ is_float total && is_float completed = false.
Proof.
  intros Hb. destruct completed as [a|x], total as [b|y]; simpl in Hb |- *.
  - unfold int_truediv. apply negb_true_iff in Hb. rewrite Hb.
    destruct (SFdiv_core_binary dbl_prec dbl_emax (Z.abs a) 0 (Z.abs b) 0)
      as [[q e'] l].
    destruct (binary_round_aux dbl_prec dbl_emax _ q e' l);
      intros H; try discriminate. injection H as <-. tauto.
  - destruct (float_of_int a) as [x|e0] eqn:Ha; simpl.
    + unfold float_truediv. apply negb_true_iff in Hb. rewrite Hb.
      discriminate.
    + intros [= <-]. split; [exact (float_of_int_raises _ _ Ha)|reflexivity].
  - destruct (float_of_int b) as [y|e0] eqn:Hy; simpl.
    + unfold float_truediv.
      rewrite (float_of_int_nonzero b y); [discriminate| |exact Hy].
      apply negb_true_iff in Hb. apply Z.eqb_neq. exact Hb.
    + intros [= <-]. split; [exact (float_of_int_raises _ _ Hy)|reflexivity].
  - unfold float_truediv. apply negb_true_iff in Hb. rewrite Hb. discriminate.
Qed.

(** C6, as amended. For every task whose [total] and [completed] are
    Python numbers, ints of any size or doubles: when [total] is zero or
    otherwise false, [percentage] is [0.0]; every value that [percentage]
    returns lies in [0, 100]; when the division [completed / total] returns
    [q], [percentage] returns [q * 100.0] clamped to [0, 100], and [0.0]
    when that product is NaN; on two floats, of any sign, infinite or NaN,
    it always returns; and the only exception it raises is [OverflowError],
    which needs an int among [total] and [completed]. *)
Theorem percentage_clamped_or_overflow (self : PyTask.t) :
  (py_bool (PyTask.total self) = false ->
   PyTask.percentage self = Ok (PyFloat float_zero))
  /\ (forall r : number,
        PyTask.percentage self = Ok r -> in_percent_range r = true)
  /\ (py_bool (PyTask.total self) = true ->
      forall q : spec_float,
        truediv (PyTask.completed self) (PyTask.total self) = Ok q ->
        exists r : number,
          PyTask.percentage self = Ok r
          /\ (SFmul dbl_prec dbl_emax q float_100 = S754_nan ->
              r = PyFloat float_zero)
          /\ (SFmul dbl_prec dbl_emax q float_100 <> S754_nan ->
              equals_double r
                (Spec.clamp (SFmul dbl_prec dbl_emax q float_100)
                            float_zero float_100)
              = true))
  /\ (is_float (PyTask.total self) = true ->
      is_float (PyTask.completed self) = true ->
      exists r : number, PyTask.percentage self = Ok r)
  /\ (forall e : exn,
        PyTask.percentage self = Err e ->
        e = OverflowError
        /\ is_float (PyTask.total self) && is_float (PyTask.completed self)
           = false).
Proof.
  unfold PyTask.percentage.
  destruct (py_bool (PyTask.total self)) eqn:Hb; simpl.
  2:{ split; [reflexivity|]. split.
      { intros r [= <-]. reflexivity. }
      split; [discriminate|]. split; [eauto|discriminate]. }
  split; [discriminate|].
  destruct (truediv (PyTask.completed self) (PyTask.total self))
    as [q|e] eqn:Hdiv; simpl.
  - pose proof (py_clamp_double (SFmul dbl_prec dbl_emax q float_100))
      as (Hrange & Hnan & Hclamp).
    cbv zeta in Hrange, Hnan, Hclamp.
    split; [intros r [= <-]; exact Hrange|].
    split.
    { intros _ q' [= <-]. eexists. split; [reflexivity|].
      split; assumption. }
    split; [eauto|discriminate].
  - split; [discriminate|]. split; [intros _ q'; discriminate|].
    destruct (truediv_raises _ _ _ Hb Hdiv) as [-> Hmix].
    split.
    + intros Ht Hc. rewrite Ht, Hc in Hmix. discriminate.
    + intros e' [= <-]. split; [reflexivity|exact Hmix].
Qed.

(** C6, counterexample. With [total = 1] and [completed = 10**400], two
    ints, [percentage] raises [OverflowError] instead of returning a value in
    [0, 100]; and with [total = 10**17] and [completed = 10**17 - 1] it
    returns 100 although [completed / total * 100] is below 100, the quotient
    being rounded to the double [1.0]. *)
Lemma percentage_overflow_counterexample :
  PyTask.percentage pytask_huge = Err OverflowError
  /\ PyTask.percentage pytask_almost_done = Ok (PyInt 100)
  /\ 10 ^ 17 - 1 < 10 ^ 17.
Proof.
  split; [vm_compute; reflexivity|]. split; [vm_compute; reflexivity|].
  reflexivity.
Qed.

(** With [total = 3] and [completed = 1] the percentage is the double
    [33.33333333333333], within [0, 100]; with [total = -5] and
    [completed = 3] the quotient is negative and the percentage is [0.0]. *)
Lemma percentage_clamped_or_overflow_witness :
  PyTask.percentage (PyTask.mk (PyInt 3) (PyInt 1))
  = Ok (PyFloat (S754_finite false 4691249611844266 (-47)))
  /\ in_percent_range (PyFloat (S754_finite false 4691249611844266 (-47)))
     = true
  /\ PyTask.percentage (PyTask.mk (PyInt (-5)) (PyInt 3))
     = Ok (PyFloat float_zero).
Proof.
  assert (H : PyTask.percentage (PyTask.mk (PyInt 3) (PyInt 1))
              = Ok (PyFloat (S754_finite false 4691249611844266 (-47))))
    by (vm_compute; reflexivity).
  split; [exact H|]. split; [|vm_compute; reflexivity].
  exact (proj1 (proj2 (percentage_clamped_or_overflow
                         (PyTask.mk (PyInt 3) (PyInt 1)))) _ H).
Defined.
